(** * html-visibility-analyzer: metrics and scoring layer

    A shallow embedding of [src/analyzer.js], [src/index.js], [src/utils.js],
    [src/browser.js] and [src/html-filter.js], with the properties the
    specification states about them.

    Conventions.
    - The two scoring functions, [calculateCitationReadability] and
      [generateVisibilityScore], are embedded over IEEE doubles (module
      [AnalyzerDouble]), as JavaScript computes them; what is stated of
      their exact values is stated there.
    - The analyses around them are embedded over exact rationals ([Q]),
      with [==] ([Qeq]) for equality of numbers.  This is the arithmetic
      the doubles approximate: the two agree where the operations are
      exact, and can differ in the last digit where they round (23 words
      against 40 give a readability of 115/2 here and
      57.499999999999993 in doubles).  Every division in the embedded code
      is guarded by a test of its divisor, so the value of [x / 0] is
      never used.
    - [Array.length] is a [nat]; it is injected into [Q] where the code
      does arithmetic with it.
    - A JavaScript string is a [string]; an absent property or a [null] is
      [None]. *)

From Stdlib Require Import ZArith QArith Qround Qminmax Qabs.
From Stdlib Require Import List String Ascii Bool Arith Lia Lqa.
From Stdlib Require Import Floats.
Import ListNotations.

Local Open Scope Q_scope.

(** * Part I: the program *)

(** ** JavaScript number primitives *)

Module JS.

(** [Math.round(x)]: the integer nearest to [x], ties towards +infinity. *)
Definition Math_round (x : Q) : Q := inject_Z (Qfloor (x + (1 # 2))).

Definition Math_min (x y : Q) : Q := Qmin x y.
Definition Math_max (x y : Q) : Q := Qmax x y.
Definition Math_abs (x : Q) : Q := Qabs x.

(** Relational operators [<], [>], [>=] and [===] on numbers. *)
Definition ltb (x y : Q) : bool := negb (Qle_bool y x).
Definition gtb (x y : Q) : bool := negb (Qle_bool x y).
Definition geb (x y : Q) : bool := Qle_bool y x.
Definition eqb (x y : Q) : bool := Qeq_bool x y.

(** [Array.length] as a number. *)
Definition of_nat (n : nat) : Q := inject_Z (Z.of_nat n).

(** [a?.f || b] on numbers and on strings: the left operand unless it is
    absent or falsy ([0] for a number, the empty string for a string). *)
Definition or_num (a : option Q) (b : Q) : Q :=
  match a with
  | Some x => if Qeq_bool x 0 then b else x
  | None => b
  end.

Definition or_str (a : option string) (b : string) : string :=
  match a with
  | Some EmptyString => b
  | Some s => s
  | None => b
  end.

End JS.

(** ** External collaborators

    Two things the embedded functions call are not part of the embedded
    code: the DOM parser behind [filterHtmlContent] (cheerio or the
    browser's [DOMParser]) and the tokenizer of [src/tokenizer.js].  They
    are the methods of a class, so that every function below is stated for
    an arbitrary parser and an arbitrary tokenizer. *)

Inductive Mode : Type := word | line.

Class Externals : Type := {
  (** [parseAndFilter html ignoreNavFooter returnText]: everything
      [filterHtmlContent] does after its empty-input test. *)
  parseAndFilter : string -> bool -> bool -> string;
  (** [tokenize(text, mode)]. *)
  tokenize : string -> Mode -> list string
}.

(** ** [src/html-filter.js] *)

Module HtmlFilter.
Section WithExternals.
Context {E : Externals}.

(** An empty [htmlContent] is falsy and returns the empty string before
    any parsing; everything else goes to the parser. *)
Definition filterHtmlContent (htmlContent : string)
    (ignoreNavFooter returnText : bool) : string :=
  match htmlContent with
  | EmptyString => EmptyString
  | _ => parseAndFilter htmlContent ignoreNavFooter returnText
  end.

Definition stripTagsToText (htmlContent : string) (ignoreNavFooter : bool)
    : string :=
  filterHtmlContent htmlContent ignoreNavFooter true.

End WithExternals.
End HtmlFilter.

(** ** [src/tokenizer.js] *)

Module Tokenizer.
Section WithExternals.
Context {E : Externals}.

(** Modelled from the spec: [countWords] of [src/tokenizer.js], which is not
    among the sources; "length of the respective tokenization". *)
Definition countWords (text : string) : nat :=
  List.length (tokenize text word).

(** Modelled from the spec: [countLines] of [src/tokenizer.js]. *)
Definition countLines (text : string) : nat :=
  List.length (tokenize text line).

End WithExternals.
End Tokenizer.

(** ** [src/diff-engine.js] *)

Module DiffEngine.

(** Modelled from the spec: the LCS length table of [diffTokens] in
    [src/diff-engine.js], which is not among the sources.
    [dp s1 s2 i j] is the entry [dp[i][j]]: row and column [0] hold [0],
    [dp[i][j] = dp[i-1][j-1] + 1] if token [i] of [s1] equals token [j] of
    [s2], else [max(dp[i-1][j], dp[i][j-1])].  Tokens are numbered from 1. *)
Fixpoint dp (s1 s2 : list string) (i : nat) {struct i} : nat -> nat :=
  match i with
  | O => fun _ => O
  | S i' =>
      fix row (j : nat) : nat :=
        match j with
        | O => O
        | S j' =>
            if String.eqb (nth i' s1 EmptyString) (nth j' s2 EmptyString)
            then S (dp s1 s2 i' j')
            else Nat.max (dp s1 s2 i' j) (row j')
        end
  end.

(** [|LCS|] is the last entry, [dp[m][n]]. *)
Definition lcsLength (s1 s2 : list string) : nat :=
  dp s1 s2 (List.length s1) (List.length s2).

Definition tokens_eqb (s1 s2 : list string) : bool :=
  if list_eq_dec string_dec s1 s2 then true else false.

Section WithExternals.
Context {E : Externals}.

(** Modelled from the spec: [calculateSimilarity] of [src/diff-engine.js].
    "returns 100 when both texts tokenize identically (including both
    empty); returns 0 when the two token sequences share no common
    subsequence; otherwise returns round(2 |LCS| / (|seq1| + |seq2|) 100,
    1 decimal)". *)
Definition calculateSimilarity (text1 text2 : string) (mode : Mode) : Q :=
  let seq1 := tokenize text1 mode in
  let seq2 := tokenize text2 mode in
  if tokens_eqb seq1 seq2 then 100
  else
    let l := lcsLength seq1 seq2 in
    if Nat.eqb l 0 then 0
    else
      JS.Math_round
        (2 * JS.of_nat l / (JS.of_nat (List.length seq1) + JS.of_nat (List.length seq2))
         * 100 * 10) / 10.

End WithExternals.
End DiffEngine.

(** ** [src/analyzer.js] *)

Module Analyzer.

Record WordCount : Type := {
  initial : Q;
  final : Q;
  difference : Q
}.

(** The [metrics] object.  The two formatted strings
    ([contentGainFormatted], [missingWordsFormatted]) are renderings of
    [contentGain] and [missingWords] and are left out. *)
Record Metrics : Type := {
  contentGain : Q;
  missingWords : Q;
  citationReadability : Q;
  similarity : Q;
  wordCount : WordCount
}.

(** The object [analyzeContentDifference] returns, restricted to the texts
    and the metrics (the diff reports, text lengths and hashes do not feed
    any metric). *)
Record Analysis : Type := {
  initialText : string;
  finalText : string;
  metrics : Metrics
}.

Record Breakdown : Type := {
  bd_citationReadability : Q;
  bd_similarity : Q;
  bd_contentGain : Q
}.

(** [{ score, category, description, breakdown }]; [src/index.js] builds the
    same object without [breakdown]. *)
Record VisibilityScore : Type := {
  score : Q;
  category : string;
  description : string;
  breakdown : option Breakdown
}.

(** [const { ignoreNavFooter = true, includeScore = true } = options]: an
    absent option is [None]. *)
Record Options : Type := {
  ignoreNavFooter : option bool;
  includeScore : option bool
}.

Definition default_true (o : option bool) : bool :=
  match o with
  | Some b => b
  | None => true
  end.

Definition calculateCitationReadability (initialWordCount finalWordCount : Q)
    : Q :=
  if JS.eqb finalWordCount 0 then 100
  else JS.Math_min 100 ((initialWordCount / finalWordCount) * 100).

Definition excellent_description : string :=
  "Excellent - AI models can easily read and cite your content".
Definition good_description : string :=
  "Good - Most of your content is visible to AI models".
Definition fair_description : string :=
  "Fair - Some content may be missed by AI crawlers".
Definition poor_description : string :=
  "Poor - Significant content is hidden from AI models".

(** The [if / else if] chain that picks category and description. *)
Definition categorize (score : Q) : string * string :=
  if JS.geb score 90 then ("excellent"%string, excellent_description)
  else if JS.geb score 70 then ("good"%string, good_description)
  else if JS.geb score 50 then ("fair"%string, fair_description)
  else ("poor"%string, poor_description).

Definition generateVisibilityScore (analysis : Analysis) : VisibilityScore :=
  let citationReadability := citationReadability (metrics analysis) in
  let similarity := similarity (metrics analysis) in
  let contentGain := contentGain (metrics analysis) in
  let readabilityWeight := 0.5 in
  let similarityWeight := 0.3 in
  let contentGainWeight := 0.2 in
  let normalizedContentGain :=
    JS.Math_min 100 (JS.Math_max 0 (100 - ((contentGain - 1) * 50))) in
  let weightedScore :=
    citationReadability * readabilityWeight
    + similarity * similarityWeight
    + normalizedContentGain * contentGainWeight in
  let score := JS.Math_round weightedScore in
  let (category, description) := categorize score in
  {| score := score;
     category := category;
     description := description;
     breakdown := Some {| bd_citationReadability := citationReadability;
                          bd_similarity := similarity;
                          bd_contentGain := normalizedContentGain |} |}.

Section WithExternals.
Context {E : Externals}.

Definition analyzeContentDifference (initHtml finHtml : string)
    (options : Options) : Analysis :=
  let ignoreNavFooter := default_true (ignoreNavFooter options) in
  let initText := HtmlFilter.stripTagsToText initHtml ignoreNavFooter in
  let finText := HtmlFilter.stripTagsToText finHtml ignoreNavFooter in
  let initTokens := tokenize initText word in
  let finTokens := tokenize finText word in
  let initLen := JS.of_nat (List.length initTokens) in
  let finLen := JS.of_nat (List.length finTokens) in
  let contentGain := if JS.gtb initLen 0 then finLen / initLen else 1 in
  let missingWords := JS.Math_abs (finLen - initLen) in
  let citationReadability := calculateCitationReadability initLen finLen in
  let similarity := DiffEngine.calculateSimilarity initText finText word in
  {| initialText := initText;
     finalText := finText;
     metrics :=
       {| contentGain := JS.Math_round (contentGain * 10) / 10;
          missingWords := missingWords;
          citationReadability := JS.Math_round citationReadability;
          similarity := JS.Math_round (similarity * 10) / 10;
          wordCount := {| initial := initLen;
                          final := finLen;
                          difference := finLen - initLen |} |} |}.

End WithExternals.
End Analyzer.

(** ** IEEE doubles

    The numbers of the two scoring functions as the code has them: binary64
    values with the round-to-nearest arithmetic of JavaScript. *)

Module Double.

Local Open Scope float_scope.

(** The double of an integer below [2 ^ 53] in magnitude. *)
Definition of_Z (z : Z) : float :=
  let a := of_uint63 (Uint63.of_Z (Z.abs z)) in
  if (z <? 0)%Z then - a else a.

(** [Math.round(x)]: [x] itself when it is not finite or is integral,
    otherwise the integer nearest to [x], ties towards +infinity, computed
    on the exact value [m * 2 ^ e] of [x]; a result of zero keeps the sign
    of [x]. *)
Definition Math_round (x : float) : float :=
  match Prim2SF x with
  | S754_finite s m e =>
      if (0 <=? e)%Z then x
      else
        let sm := if s then Z.neg m else Z.pos m in
        let z := ((2 * sm + 2 ^ (- e)) / 2 ^ (- e + 1))%Z in
        if (z =? 0)%Z then (if s then neg_zero else zero) else of_Z z
  | _ => x
  end.

(** [Math.max(x, y)] and [Math.min(x, y)]: [NaN] if either is, and [+0]
    above [-0]. *)
Definition Math_max (x y : float) : float :=
  if is_nan x || is_nan y then nan
  else if x <? y then y
  else if y <? x then x
  else if get_sign x then y else x.

Definition Math_min (x y : float) : float :=
  if is_nan x || is_nan y then nan
  else if x <? y then x
  else if y <? x then y
  else if get_sign x then x else y.

(** [x >= y] and [x === y] on numbers. *)
Definition geb (x y : float) : bool := y <=? x.
Definition eqb (x y : float) : bool := x =? y.

(** The same number: equal as [===] has it, or both [NaN]
    (ECMAScript's SameValueZero). *)
Definition sameValueZero (x y : float) : bool :=
  (x =? y) || (is_nan x && is_nan y).

(** [clamp x lo hi], by comparisons. *)
Definition clamp (x lo hi : float) : float :=
  if x <? lo then lo else if hi <? x then hi else x.

End Double.

(** ** [src/analyzer.js] over doubles *)

Module AnalyzerDouble.

Local Open Scope float_scope.
#[local] Set Warnings "-inexact-float".

Record WordCount : Type := {
  initial : float;
  final : float;
  difference : float
}.

Record Metrics : Type := {
  contentGain : float;
  missingWords : float;
  citationReadability : float;
  similarity : float;
  wordCount : WordCount
}.

Record Analysis : Type := {
  initialText : string;
  finalText : string;
  metrics : Metrics
}.

Record Breakdown : Type := {
  bd_citationReadability : float;
  bd_similarity : float;
  bd_contentGain : float
}.

Record VisibilityScore : Type := {
  score : float;
  category : string;
  description : string;
  breakdown : option Breakdown
}.

Definition calculateCitationReadability (initialWordCount finalWordCount : float)
    : float :=
  if Double.eqb finalWordCount 0 then 100
  else Double.Math_min 100 ((initialWordCount / finalWordCount) * 100).

(** The [if / else if] chain that picks category and description. *)
Definition categorize (score : float) : string * string :=
  if Double.geb score 90 then ("excellent"%string, Analyzer.excellent_description)
  else if Double.geb score 70 then ("good"%string, Analyzer.good_description)
  else if Double.geb score 50 then ("fair"%string, Analyzer.fair_description)
  else ("poor"%string, Analyzer.poor_description).

Definition generateVisibilityScore (analysis : Analysis) : VisibilityScore :=
  let citationReadability := citationReadability (metrics analysis) in
  let similarity := similarity (metrics analysis) in
  let contentGain := contentGain (metrics analysis) in
  let readabilityWeight := 0.5 in
  let similarityWeight := 0.3 in
  let contentGainWeight := 0.2 in
  let normalizedContentGain :=
    Double.Math_min 100 (Double.Math_max 0 (100 - ((contentGain - 1) * 50))) in
  let weightedScore :=
    citationReadability * readabilityWeight
    + similarity * similarityWeight
    + normalizedContentGain * contentGainWeight in
  let score := Double.Math_round weightedScore in
  let (category, description) := categorize score in
  {| score := score;
     category := category;
     description := description;
     breakdown := Some {| bd_citationReadability := citationReadability;
                          bd_similarity := similarity;
                          bd_contentGain := normalizedContentGain |} |}.

(** An analysis with given metrics. *)
Definition withMetrics (gain readability sim : float) : Analysis :=
  {| initialText := EmptyString;
     finalText := EmptyString;
     metrics :=
       {| contentGain := gain;
          missingWords := 0;
          citationReadability := readability;
          similarity := sim;
          wordCount := {| initial := 0; final := 0; difference := 0 |} |} |}.

End AnalyzerDouble.

(** ** [src/index.js] *)

Module Index.
Import Analyzer.

(** The object [analyzeVisibility] returns; [visibilityScore] is present
    only when the score was asked for. *)
Record VisibilityAnalysis : Type := {
  va_initialText : string;
  va_finalText : string;
  va_metrics : Metrics;
  va_visibilityScore : option VisibilityScore
}.

Record ReadinessMetrics : Type := {
  rm_citationReadability : Q;
  rm_contentGain : Q;
  rm_missingWords : Q;
  rm_similarity : Q
}.

(** The object [quickCompare] returns; its [wordCount] names the two
    counts [first] and [second]. *)
Record QuickComparison : Type := {
  qc_wordCount : WordCount;
  qc_contentGain : Q;
  qc_missingWords : Q;
  qc_similarity : Q
}.

(** The object [getCitationReadiness] returns. *)
Record CitationReadiness : Type := {
  cr_score : Q;
  cr_category : string;
  cr_description : string;
  cr_metrics : ReadinessMetrics;
  cr_recommendations : list string
}.

Definition ssr_recommendation : string :=
  "Consider implementing server-side rendering (SSR) to improve content visibility for AI crawlers".
Definition javascript_recommendation : string :=
  "Significant content is loaded via JavaScript - ensure critical content is present in initial HTML".
Definition missing_recommendation : string :=
  "Large amount of content is missing from initial HTML - review your content loading strategy".
Definition praise_recommendation : string :=
  "Great job! Your content is well-optimized for AI visibility and citations".

(** [if (c) recommendations.push(msg)] on the array built so far. *)
Definition push_if (c : bool) (msg : string) (recommendations : list string)
    : list string :=
  if c then recommendations ++ [msg] else recommendations.

Definition generateRecommendations (metrics : Metrics) : list string :=
  let recommendations := [] in
  let citationReadability := citationReadability metrics in
  let contentGain := contentGain metrics in
  let missingWords := missingWords metrics in
  let recommendations :=
    push_if (JS.ltb citationReadability 50) ssr_recommendation recommendations in
  let recommendations :=
    push_if (JS.gtb contentGain 3) javascript_recommendation recommendations in
  let recommendations :=
    push_if (JS.gtb missingWords 1000) missing_recommendation recommendations in
  let recommendations :=
    push_if (JS.geb citationReadability 80 && JS.ltb contentGain 1.5)
      praise_recommendation recommendations in
  recommendations.

Section WithExternals.
Context {E : Externals}.

(** The value [analyzeVisibility] returns.  The dynamic [import(...).then]
    at its head only schedules a callback whose result is dropped; the
    returned object is built by the synchronous code after it. *)
Definition analyzeVisibility (initialHtml renderedHtml : string)
    (options : Options) : VisibilityAnalysis :=
  let ignoreNavFooter := default_true (ignoreNavFooter options) in
  let includeScore := default_true (includeScore options) in
  let text1 := HtmlFilter.stripTagsToText initialHtml ignoreNavFooter in
  let text2 := HtmlFilter.stripTagsToText renderedHtml ignoreNavFooter in
  let words1 := JS.of_nat (Tokenizer.countWords text1) in
  let words2 := JS.of_nat (Tokenizer.countWords text2) in
  let similarity := DiffEngine.calculateSimilarity text1 text2 word in
  let contentGain :=
    if JS.gtb words1 0 then words2 / words1
    else if JS.gtb words2 0 then words2 else 1 in
  let missingWords := JS.Math_abs (words2 - words1) in
  let citationReadability :=
    if JS.eqb words1 0 then 100
    else if JS.gtb words2 0 then JS.Math_min 100 ((words1 / words2) * 100)
    else 0 in
  let metrics :=
    {| contentGain := JS.Math_round (contentGain * 10) / 10;
       missingWords := missingWords;
       citationReadability := JS.Math_round citationReadability;
       similarity := JS.Math_round (similarity * 10) / 10;
       wordCount := {| initial := words1;
                       final := words2;
                       difference := words2 - words1 |} |} in
  let visibilityScore :=
    if includeScore then
      let score :=
        JS.Math_round
          (citationReadability * 0.5
           + similarity * 0.3
           + JS.Math_min 100 (JS.Math_max 0 (100 - ((contentGain - 1) * 50))) * 0.2) in
      let (category, description) := categorize score in
      Some {| score := score;
              category := category;
              description := description;
              breakdown := None |}
    else None in
  {| va_initialText := text1;
     va_finalText := text2;
     va_metrics := metrics;
     va_visibilityScore := visibilityScore |}.

Definition quickCompare (html1 html2 : string) (options : Options)
    : QuickComparison :=
  let ignoreNavFooter := default_true (ignoreNavFooter options) in
  let text1 := HtmlFilter.stripTagsToText html1 ignoreNavFooter in
  let text2 := HtmlFilter.stripTagsToText html2 ignoreNavFooter in
  let words1 := JS.of_nat (Tokenizer.countWords text1) in
  let words2 := JS.of_nat (Tokenizer.countWords text2) in
  let similarity := DiffEngine.calculateSimilarity text1 text2 word in
  let contentGain := if JS.gtb words1 0 then words2 / words1 else 1 in
  let missingWords := JS.Math_abs (words2 - words1) in
  {| qc_wordCount := {| initial := words1;
                        final := words2;
                        difference := words2 - words1 |};
     qc_contentGain := JS.Math_round (contentGain * 10) / 10;
     qc_missingWords := missingWords;
     qc_similarity := JS.Math_round (similarity * 10) / 10 |}.

Definition getCitationReadiness (initialHtml renderedHtml : string)
    (options : Options) : CitationReadiness :=
  let analysis := analyzeVisibility initialHtml renderedHtml options in
  {| cr_score := JS.or_num (option_map score (va_visibilityScore analysis)) 0;
     cr_category :=
       JS.or_str (option_map category (va_visibilityScore analysis)) "unknown";
     cr_description :=
       JS.or_str (option_map description (va_visibilityScore analysis))
         "Analysis completed";
     cr_metrics :=
       {| rm_citationReadability := citationReadability (va_metrics analysis);
          rm_contentGain := contentGain (va_metrics analysis);
          rm_missingWords := missingWords (va_metrics analysis);
          rm_similarity := similarity (va_metrics analysis) |};
     cr_recommendations := generateRecommendations (va_metrics analysis) |}.

End WithExternals.
End Index.

(** ** A reference environment

    Markup-free text under a whitespace tokenizer: the environment in which
    the properties below are evaluated on concrete inputs. *)

Module PlainText.

(** JavaScript's [\s] on the ASCII range: tab to carriage return, and
    space. *)
Definition isWhite (c : ascii) : bool :=
  let n := nat_of_ascii c in
  ((9 <=? n)%nat && (n <=? 13)%nat) || (n =? 32)%nat.

Definition isLineBreak (c : ascii) : bool :=
  let n := nat_of_ascii c in
  (n =? 10)%nat || (n =? 13)%nat.

Definition flush (cur : string) : list string :=
  match cur with
  | EmptyString => []
  | _ => [cur]
  end.

(** The non-empty pieces of [s] between separators; [cur] is the piece
    being read. *)
Fixpoint splitBy (sep : ascii -> bool) (cur s : string) : list string :=
  match s with
  | EmptyString => flush cur
  | String c rest =>
      if sep c then flush cur ++ splitBy sep EmptyString rest
      else splitBy sep (cur ++ String c EmptyString) rest
  end.

Fixpoint trimStart (s : string) : string :=
  match s with
  | String c rest => if isWhite c then trimStart rest else s
  | EmptyString => EmptyString
  end.

Fixpoint trimEnd (s : string) : string :=
  match s with
  | EmptyString => EmptyString
  | String c rest =>
      match trimEnd rest with
      | EmptyString => if isWhite c then EmptyString else String c EmptyString
      | rest' => String c rest'
      end
  end.

Definition trim (s : string) : string := trimEnd (trimStart s).

(** Modelled from the spec: [tokenize] of [src/tokenizer.js], which is not
    among the sources, on text that holds no URL and no punctuation.  There
    the word pipeline is its steps 1, 4 and 5 (line endings, whitespace
    collapse and trim, split into non-empty tokens), and line mode splits
    on line breaks, trims each line and drops the empty ones. *)
Definition tokenize (text : string) (mode : Mode) : list string :=
  match mode with
  | word => splitBy isWhite EmptyString text
  | line =>
      filter (fun l => negb (String.eqb l EmptyString))
        (map trim (splitBy isLineBreak EmptyString text))
  end.

(** Text without markup is its own text content. *)
Definition parseAndFilter (html : string) (ignoreNavFooter returnText : bool)
    : string := html.

Definition env : Externals :=
  Build_Externals parseAndFilter tokenize.

Definition defaults : Analyzer.Options :=
  {| Analyzer.ignoreNavFooter := None; Analyzer.includeScore := None |}.

End PlainText.

(** ** The vocabulary of the specification

    The specification states the metrics with [clamp], with rounding to one
    decimal and with a table of recommendation rules.  They are defined here
    from its words and compared with the code in Part II. *)

(** [clamp x lo hi]: [x] brought into the interval from [lo] to [hi]. *)
Definition clamp (x lo hi : Q) : Q :=
  if Qlt_le_dec x lo then lo else if Qlt_le_dec hi x then hi else x.

(** [round(x, 1 decimal)]. *)
Definition round1 (x : Q) : Q := JS.Math_round (x * 10) / 10.

(** [normalizedGain = clamp(100 - (contentGain - 1) 50, 0, 100)]. *)
Definition normalizedGain (contentGain : Q) : Q :=
  clamp (100 - (contentGain - 1) * 50) 0 100.

(** The recommendation rules, in the order they are evaluated: a condition
    on the metrics and the message it adds. *)
Definition ruleTable : list ((Analyzer.Metrics -> bool) * string) :=
  [ (fun m => JS.ltb (Analyzer.citationReadability m) 50,
     Index.ssr_recommendation);
    (fun m => JS.gtb (Analyzer.contentGain m) 3,
     Index.javascript_recommendation);
    (fun m => JS.gtb (Analyzer.missingWords m) 1000,
     Index.missing_recommendation);
    (fun m => JS.geb (Analyzer.citationReadability m) 80
              && JS.ltb (Analyzer.contentGain m) 1.5,
     Index.praise_recommendation) ].

(** The messages of the rules that apply, in table order. *)
Definition firedRules (m : Analyzer.Metrics) : list string :=
  map snd (filter (fun rule => fst rule m) ruleTable).

(** The four categories of a visibility score. *)
Definition categories : list string :=
  ["poor"; "fair"; "good"; "excellent"]%string.

(** ** [src/utils.js]: the content hash *)

Module Utils.

Local Open Scope Z_scope.

(** [ToInt32] and [ToUint32] of an integer-valued number. *)
Definition toInt32 (z : Z) : Z :=
  let m := z mod 2 ^ 32 in
  if m <? 2 ^ 31 then m else m - 2 ^ 32.

Definition toUint32 (z : Z) : Z := z mod 2 ^ 32.

(** [x << k] for a shift count [k] below 32: both operands go through
    [ToInt32] and the product wraps to a signed 32-bit integer. *)
Definition shiftLeft (x k : Z) : Z := toInt32 (Z.shiftl (toInt32 x) k).

(** [x >>> 0]. *)
Definition unsignedShiftRight0 (x : Z) : Z := toUint32 x.

(** [str.charCodeAt(i)]: a character of a [string] is a code unit below
    256. *)
Definition charCode (c : ascii) : Z := Z.of_nat (nat_of_ascii c).

(** The body of the [for] loop, run over the characters left to right:
    [h = ((h << 5) + h) + str.charCodeAt(i)].  The accumulator is a number,
    not a 32-bit integer: only the shift wraps.  It is an integer here; the
    double of the code holds that same integer as long as its magnitude is
    below [2 ^ 53], which is the case for texts shorter than [2 ^ 21]
    characters ([UtilsFacts.hashLoop_bound]); beyond that the additions of
    the code round and this loop no longer describes them. *)
Fixpoint hashLoop (h : Z) (str : string) : Z :=
  match str with
  | EmptyString => h
  | String c rest => hashLoop ((shiftLeft h 5 + h) + charCode c) rest
  end.

Definition hexDigit (d : Z) : ascii :=
  match d with
  | 0 => "0" | 1 => "1" | 2 => "2" | 3 => "3"
  | 4 => "4" | 5 => "5" | 6 => "6" | 7 => "7"
  | 8 => "8" | 9 => "9" | 10 => "a" | 11 => "b"
  | 12 => "c" | 13 => "d" | 14 => "e" | _ => "f"
  end%char.

(** The digits of [n] in base 16, most significant first, put before
    [acc]. *)
Fixpoint hexDigits (fuel : nat) (n : Z) (acc : string) : string :=
  match fuel with
  | O => acc
  | S fuel' =>
      let acc' := String (hexDigit (n mod 16)) acc in
      if n / 16 =? 0 then acc' else hexDigits fuel' (n / 16) acc'
  end.

(** [n.toString(16)] for an integer [n >= 0]. *)
Definition toString16 (n : Z) : string :=
  hexDigits (S (Z.to_nat (Z.log2 n))) n EmptyString.

Definition hashDJB2 (str : string) : string :=
  match str with
  | EmptyString => EmptyString
  | _ => toString16 (unsignedShiftRight0 (hashLoop 5381 str))
  end.

(** The value of a hexadecimal digit and of a string of them:
    [parseInt(s, 16)]. *)
Definition hexValue (c : ascii) : Z :=
  let n := Z.of_nat (nat_of_ascii c) in
  if (48 <=? n) && (n <=? 57) then n - 48
  else if (97 <=? n) && (n <=? 102) then n - 87
  else 0.

Fixpoint parseHex (s : string) : Z :=
  match s with
  | EmptyString => 0
  | String c rest => hexValue c * 16 ^ Z.of_nat (String.length rest) + parseHex rest
  end.

(** The textbook DJB2 recurrence [h = h * 33 + c], without any wrapping. *)
Fixpoint djb2 (h : Z) (str : string) : Z :=
  match str with
  | EmptyString => h
  | String c rest => djb2 (h * 33 + charCode c) rest
  end.

End Utils.

(** ** [src/html-filter.js]: whitespace clean-up and the word counter *)

Module TextFilter.

(** JavaScript's white space ([\s], and what [trim] removes) among the code
    units below 256: tab to carriage return, space and no-break space. *)
Definition isSpace (c : ascii) : bool :=
  let n := nat_of_ascii c in
  ((9 <=? n)%nat && (n <=? 13)%nat) || (n =? 32)%nat || (n =? 160)%nat.

Fixpoint trimStart (s : string) : string :=
  match s with
  | String c rest => if isSpace c then trimStart rest else s
  | EmptyString => EmptyString
  end.

Fixpoint trimEnd (s : string) : string :=
  match s with
  | EmptyString => EmptyString
  | String c rest =>
      match trimEnd rest with
      | EmptyString => if isSpace c then EmptyString else String c EmptyString
      | rest' => String c rest'
      end
  end.

(** [s.trim()]. *)
Definition trim (s : string) : string := trimEnd (trimStart s).

(** [s.replace(/\s+/g, ' ')]: every maximal run of white space becomes one
    space. *)
Fixpoint collapseSpaces (s : string) : string :=
  match s with
  | EmptyString => EmptyString
  | String c rest =>
      if isSpace c then
        match rest with
        | String c' _ =>
            if isSpace c' then collapseSpaces rest
            else String " " (collapseSpaces rest)
        | EmptyString => String " " EmptyString
        end
      else String c (collapseSpaces rest)
  end.

(** [s.split(/\s+/)]: the pieces between the maximal runs of white space.
    A run at the very start or end leaves an empty piece there, and the
    empty string splits into one empty piece. *)
Fixpoint splitSpaces (s : string) : list string :=
  match s with
  | EmptyString => [EmptyString]
  | String c rest =>
      if isSpace c then
        match rest with
        | String c' _ =>
            if isSpace c' then splitSpaces rest
            else EmptyString :: splitSpaces rest
        | EmptyString => EmptyString :: splitSpaces rest
        end
      else
        match splitSpaces rest with
        | piece :: pieces => String c piece :: pieces
        | [] => [String c EmptyString]
        end
  end.

(** [word => word.length > 0]. *)
Definition nonEmpty (w : string) : bool := (0 <? String.length w)%nat.

(** The parsers [filterHtmlContent] hands the markup to, by environment:
    the browser's [DOMParser] when [document] and [DOMParser] are defined,
    cheerio otherwise.  Each gives the text content and the filtered markup
    of a document, with or without its navigation and footer. *)
Record Parsers : Type := {
  domAvailable : bool;
  domText : string -> bool -> string;
  domHtml : string -> bool -> string;
  cheerioText : string -> bool -> string;
  cheerioHtml : string -> bool -> string
}.

Section WithParsers.
Variable P : Parsers.

(** [filterHtmlContent] of [src/html-filter.js] with its two branches: the
    browser branch returns the text content as it is, the Node.js branch
    cleans the white space of cheerio's text. *)
Definition filterHtmlContent (htmlContent : string)
    (ignoreNavFooter returnText : bool) : string :=
  match htmlContent with
  | EmptyString => EmptyString
  | _ =>
      if domAvailable P then
        if returnText then domText P htmlContent ignoreNavFooter
        else domHtml P htmlContent ignoreNavFooter
      else
        if returnText then
          trim (collapseSpaces (cheerioText P htmlContent ignoreNavFooter))
        else cheerioHtml P htmlContent ignoreNavFooter
  end.

Definition stripTagsToText (htmlContent : string) (ignoreNavFooter : bool)
    : string :=
  filterHtmlContent htmlContent ignoreNavFooter true.

(** [extractWordCount]; the result object has the one property
    [word_count]. *)
Definition extractWordCount (htmlContent : string) (ignoreNavFooter : bool)
    : nat :=
  match htmlContent with
  | EmptyString => 0%nat
  | _ =>
      let textContent := stripTagsToText htmlContent ignoreNavFooter in
      let words := filter nonEmpty (splitSpaces (trim textContent)) in
      List.length words
  end.

(** The environment these parsers make with a tokenizer. *)
Definition externals (tokenize : string -> Mode -> list string) : Externals :=
  Build_Externals filterHtmlContent tokenize.

End WithParsers.

(** Node.js with markup-free text, which is its own text content: the
    parsers on which the properties are evaluated. *)
Definition nodeParsers : Parsers :=
  {| domAvailable := false;
     domText := fun html _ => html;
     domHtml := fun html _ => html;
     cheerioText := fun html _ => html;
     cheerioHtml := fun html _ => html |}.

(** The number of words of a text: the positions where a character that is
    not white space starts the text or follows white space. *)
Fixpoint wordStarts (afterSpace : bool) (s : string) : nat :=
  match s with
  | EmptyString => 0%nat
  | String c rest =>
      if isSpace c then wordStarts true rest
      else ((if afterSpace then 1 else 0) + wordStarts false rest)%nat
  end.

(** A text whose white space is clean: single spaces between words and
    nothing else. *)
Fixpoint cleanFrom (afterSpace : bool) (s : string) : bool :=
  match s with
  | EmptyString => negb afterSpace
  | String c rest =>
      if isSpace c then
        Ascii.eqb c " " && negb afterSpace && cleanFrom true rest
      else cleanFrom false rest
  end.

Definition clean (s : string) : bool :=
  match s with
  | EmptyString => true
  | _ => cleanFrom true s
  end.

(** The same without the conditions on the two ends: white space is made
    of spaces, never two in a row. *)
Fixpoint tidy (afterSpace : bool) (s : string) : bool :=
  match s with
  | EmptyString => true
  | String c rest =>
      if isSpace c then Ascii.eqb c " " && negb afterSpace && tidy true rest
      else tidy false rest
  end.

(** Whether the text begins with a character that is not white space. *)
Definition startsWithWord (s : string) : bool :=
  match s with
  | EmptyString => false
  | String c _ => negb (isSpace c)
  end.

(** Whether the text is white space throughout. *)
Fixpoint blank (s : string) : bool :=
  match s with
  | EmptyString => true
  | String c rest => isSpace c && blank rest
  end.

End TextFilter.

(** ** [src/analyzer.js]: both filtering scenarios *)

Module Scenarios.
Import Analyzer.

(** One scenario of the result: the metrics spread into the object, beside
    the full analysis they come from. *)
Record Scenario : Type := {
  scenarioMetrics : Metrics;
  fullAnalysis : Analysis
}.

Record BothScenarios : Type := {
  withNavFooterIgnored : Scenario;
  withoutNavFooterIgnored : Scenario
}.


Section WithExternals.
Context {E : Externals}.

Definition analyzeBothScenarios (initHtml finHtml : string) : BothScenarios :=
  let withNavFooterIgnored :=
    analyzeContentDifference initHtml finHtml
      {| ignoreNavFooter := Some true; includeScore := None |} in
  let withoutNavFooterIgnored :=
    analyzeContentDifference initHtml finHtml
      {| ignoreNavFooter := Some false; includeScore := None |} in
  {| withNavFooterIgnored :=
       {| scenarioMetrics := metrics withNavFooterIgnored;
          fullAnalysis := withNavFooterIgnored |};
     withoutNavFooterIgnored :=
       {| scenarioMetrics := metrics withoutNavFooterIgnored;
          fullAnalysis := withoutNavFooterIgnored |} |}.

End WithExternals.
End Scenarios.

(** ** [src/browser.js] *)

Module Browser.
Import Analyzer.

(** A call either returns or throws an [Error] with a message. *)
Inductive Outcome (A : Type) : Type :=
| Return (value : A)
| Throw (message : string).
Arguments Return {A} value.
Arguments Throw {A} message.

Definition bind {A B : Type} (o : Outcome A) (k : A -> Outcome B) : Outcome B :=
  match o with
  | Return a => k a
  | Throw message => Throw message
  end.

Definition environmentError : string :=
  "Browser environment required - use main package for Node.js".

Section WithExternals.
Context {E : Externals}.

(** Whether [document] and [DOMParser] are defined. *)
Variable browser : bool.

(** The empty-input test comes first, then the environment test, then the
    parser. *)
Definition filterHtmlContent (htmlContent : string)
    (ignoreNavFooter returnText : bool) : Outcome string :=
  match htmlContent with
  | EmptyString => Return EmptyString
  | _ =>
      if browser then Return (parseAndFilter htmlContent ignoreNavFooter returnText)
      else Throw environmentError
  end.

Definition stripTagsToText (htmlContent : string) (ignoreNavFooter : bool)
    : Outcome string :=
  filterHtmlContent htmlContent ignoreNavFooter true.

Definition analyzeContentDifference (initHtml finHtml : string)
    (options : Options) : Outcome Analysis :=
  let ignoreNavFooter := default_true (ignoreNavFooter options) in
  bind (stripTagsToText initHtml ignoreNavFooter) (fun initText =>
  bind (stripTagsToText finHtml ignoreNavFooter) (fun finText =>
  let initWords := JS.of_nat (Tokenizer.countWords initText) in
  let finWords := JS.of_nat (Tokenizer.countWords finText) in
  let contentGain := if JS.gtb initWords 0 then finWords / initWords else 1 in
  let missingWords := JS.Math_abs (finWords - initWords) in
  let citationReadability :=
    if JS.gtb finWords 0 then JS.Math_min 100 ((initWords / finWords) * 100)
    else 100 in
  let similarity := DiffEngine.calculateSimilarity initText finText word in
  Return
    {| initialText := initText;
       finalText := finText;
       metrics :=
         {| contentGain := JS.Math_round (contentGain * 10) / 10;
            missingWords := missingWords;
            citationReadability := JS.Math_round citationReadability;
            similarity := JS.Math_round (similarity * 10) / 10;
            wordCount := {| initial := initWords;
                            final := finWords;
                            difference := finWords - initWords |} |} |})).

Definition analyzeVisibility (initialHtml renderedHtml : string)
    (options : Options) : Outcome Analysis :=
  analyzeContentDifference initialHtml renderedHtml options.

End WithExternals.
End Browser.

(** * Part II: properties *)

(** ** Number primitives *)

Module JSFacts.
Import JS.

Lemma ltb_lt (x y : Q) : ltb x y = true <-> x < y.
Proof.
  unfold ltb. rewrite negb_true_iff, <- not_true_iff_false, Qle_bool_iff.
  split; [apply Qnot_le_lt | apply Qlt_not_le].
Qed.

Lemma gtb_lt (x y : Q) : gtb x y = true <-> y < x.
Proof. apply ltb_lt. Qed.

Lemma geb_le (x y : Q) : geb x y = true <-> y <= x.
Proof. apply Qle_bool_iff. Qed.

Lemma geb_false (x y : Q) : geb x y = false <-> x < y.
Proof.
  unfold geb. rewrite <- not_true_iff_false, Qle_bool_iff.
  split; [apply Qnot_le_lt | apply Qlt_not_le].
Qed.

Lemma eqb_eq (x y : Q) : eqb x y = true <-> x == y.
Proof. apply Qeq_bool_iff. Qed.

Lemma Math_round_comp (x y : Q) : x == y -> Math_round x = Math_round y.
Proof. intros H. unfold Math_round. now rewrite H. Qed.

(** Rounding leaves an integer where it is. *)
Lemma Math_round_Z (z : Z) : Math_round (inject_Z z) = inject_Z z.
Proof.
  unfold Math_round. f_equal.
  assert (H1 : inject_Z (Qfloor (inject_Z z + (1 # 2))) <= inject_Z z + (1 # 2))
    by apply Qfloor_le.
  set (f := Qfloor (inject_Z z + (1 # 2))) in *.
  assert (Hz : (z <= f)%Z).
  { rewrite <- (Qfloor_Z z). apply Qfloor_resp_le. lra. }
  assert (Hf : (f < z + 1)%Z).
  { rewrite Zlt_Qlt, inject_Z_plus. change (inject_Z 1) with 1. lra. }
  lia.
Qed.

Lemma Math_round_eqZ (x : Q) (z : Z) : x == inject_Z z -> Math_round x = inject_Z z.
Proof. intros H. rewrite (Math_round_comp _ _ H). apply Math_round_Z. Qed.

Lemma of_nat_0 : of_nat 0 = 0.
Proof. reflexivity. Qed.

Lemma of_nat_pos (n : nat) : (0 < n)%nat -> 0 < of_nat n.
Proof.
  intros H. unfold of_nat. change 0 with (inject_Z 0).
  rewrite <- Zlt_Qlt. lia.
Qed.


Lemma gtb_of_nat_0 (n : nat) : gtb (of_nat n) 0 = negb (Nat.eqb n 0).
Proof.
  destruct n as [|n].
  - reflexivity.
  - simpl negb. apply gtb_lt, of_nat_pos. lia.
Qed.

Lemma eqb_of_nat_0 (n : nat) : eqb (of_nat n) 0 = Nat.eqb n 0.
Proof.
  destruct n as [|n].
  - reflexivity.
  - simpl Nat.eqb. apply not_true_iff_false. rewrite eqb_eq.
    pose proof (of_nat_pos (S n) ltac:(lia)). lra.
Qed.

End JSFacts.

(** ** Clamping and one-decimal rounding *)

Lemma min_max_clamp (x : Q) :
  JS.Math_min 100 (JS.Math_max 0 x) == clamp x 0 100.
Proof.
  unfold JS.Math_min, JS.Math_max, clamp.
  destruct (Qlt_le_dec x 0) as [H0 | H0].
  - rewrite Q.max_l by lra. rewrite Q.min_r by lra. reflexivity.
  - rewrite Q.max_r by lra.
    destruct (Qlt_le_dec 100 x) as [H1 | H1].
    + rewrite Q.min_l by lra. reflexivity.
    + rewrite Q.min_r by lra. reflexivity.
Qed.

Lemma clamp_comp (x y lo hi : Q) : x == y -> clamp x lo hi == clamp y lo hi.
Proof.
  intros H. unfold clamp.
  destruct (Qlt_le_dec x lo), (Qlt_le_dec y lo); try reflexivity; try lra.
  destruct (Qlt_le_dec hi x), (Qlt_le_dec hi y); try reflexivity; try lra.
Qed.

Lemma round1_Z (x : Q) (z : Z) : x == inject_Z z -> round1 x == inject_Z z.
Proof.
  intros H. unfold round1.
  rewrite (JSFacts.Math_round_eqZ (x * 10) (z * 10)).
  - rewrite inject_Z_mult. change (inject_Z 10) with 10. field.
  - rewrite inject_Z_mult, H. reflexivity.
Qed.

(** ** Citation readability and the visibility score *)

Module AnalyzerFacts.
Import Analyzer.

(** The guard [finalWordCount === 0] and the branch after it. *)
Lemma readability_no_final_words (count1 : nat) :
  calculateCitationReadability (JS.of_nat count1) (JS.of_nat 0) = 100.
Proof. reflexivity. Qed.

Lemma readability_some_final_words (count1 count2 : nat) :
  count2 <> 0%nat ->
  calculateCitationReadability (JS.of_nat count1) (JS.of_nat count2)
  = JS.Math_min 100 (JS.of_nat count1 / JS.of_nat count2 * 100).
Proof.
  intros H. unfold calculateCitationReadability.
  rewrite JSFacts.eqb_of_nat_0.
  apply Nat.eqb_neq in H. now rewrite H.
Qed.


Lemma score_generateVisibilityScore (a : Analysis) :
  score (generateVisibilityScore a)
  = JS.Math_round
      (citationReadability (metrics a) * 0.5
       + similarity (metrics a) * 0.3
       + JS.Math_min 100
           (JS.Math_max 0 (100 - (contentGain (metrics a) - 1) * 50)) * 0.2).
Proof.
  unfold generateVisibilityScore.
  destruct (categorize _). reflexivity.
Qed.


End AnalyzerFacts.

(** ** The scoring functions over doubles *)

Module DoubleFacts.
Import Double AnalyzerDouble.

Local Open Scope float_scope.
#[local] Set Warnings "-inexact-float".

Lemma Prim2SF_0 : Prim2SF 0 = S754_zero false.
Proof. vm_compute. reflexivity. Qed.

Lemma Prim2SF_50 : Prim2SF 50 = S754_finite false 7036874417766400 (-47).
Proof. vm_compute. reflexivity. Qed.

Lemma Prim2SF_70 : Prim2SF 70 = S754_finite false 4925812092436480 (-46).
Proof. vm_compute. reflexivity. Qed.

Lemma Prim2SF_90 : Prim2SF 90 = S754_finite false 6333186975989760 (-46).
Proof. vm_compute. reflexivity. Qed.

Lemma Prim2SF_100 : Prim2SF 100 = S754_finite false 7036874417766400 (-46).
Proof. vm_compute. reflexivity. Qed.

(** Multiplication of doubles commutes. *)
Lemma mul_comm (x y : float) : x * y = y * x.
Proof.
  rewrite <- (SF2Prim_Prim2SF (x * y)), <- (SF2Prim_Prim2SF (y * x)), !mul_spec.
  f_equal. unfold SF64mul, SFmul.
  destruct (Prim2SF x) as [sx | sx | | sx mx ex],
           (Prim2SF y) as [sy | sy | | sy my ey];
    try reflexivity; rewrite (xorb_comm sx sy); try reflexivity.
  now rewrite (Pos.mul_comm mx my), (Z.add_comm ex ey).
Qed.

(** A score of at least 90 is at least 70, and one of at least 70 is at
    least 50: the thresholds are nested for every double, and [NaN] is
    below all of them. *)
Lemma leb_90_70 (s : float) : (90 <=? s) = true -> (70 <=? s) = true.
Proof.
  rewrite !leb_spec, Prim2SF_90, Prim2SF_70.
  unfold SFleb, SFcompare.
  destruct (Prim2SF s) as [sz | si | | ss m e]; [tauto | tauto | tauto | ].
  destruct ss; [tauto|].
  destruct (Z.compare_spec (-46) e); [|tauto|tauto].
  change (PosDef.Pos.compare_cont Eq ?a ?b) with (Pos.compare a b).
  rewrite !Pos2Z.inj_compare. generalize (Z.pos m). intros z.
  destruct (Z.compare_spec 6333186975989760 z);
    destruct (Z.compare_spec 4925812092436480 z); try tauto; lia.
Qed.

Lemma leb_70_50 (s : float) : (70 <=? s) = true -> (50 <=? s) = true.
Proof.
  rewrite !leb_spec, Prim2SF_70, Prim2SF_50.
  unfold SFleb, SFcompare.
  destruct (Prim2SF s) as [sz | si | | ss m e]; [tauto | tauto | tauto | ].
  destruct ss; [tauto|].
  destruct (Z.compare_spec (-46) e), (Z.compare_spec (-47) e); try tauto; lia.
Qed.

(** How a double stands to 0 and to 100: it is [NaN], negative, a zero,
    between the two, 100 itself, or above 100. *)
Lemma compare_0_100 (x : float) :
  ((x =? x) = false /\ (0 <? x) = false /\ (x <? 0) = false
   /\ (100 <? x) = false /\ (x <? 100) = false) \/
  ((x =? x) = true /\ (0 <? x) = false /\ (x <? 0) = true
   /\ (100 <? x) = false /\ (x <? 100) = true) \/
  ((x =? x) = true /\ (0 <? x) = false /\ (x <? 0) = false /\ (0 =? x) = true
   /\ (100 <? x) = false /\ (x <? 100) = true) \/
  ((x =? x) = true /\ (0 <? x) = true /\ (x <? 0) = false
   /\ (100 <? x) = false /\ (x <? 100) = true) \/
  ((x =? x) = true /\ (0 <? x) = true /\ (x <? 0) = false
   /\ (100 <? x) = false /\ (x <? 100) = false) \/
  ((x =? x) = true /\ (0 <? x) = true /\ (x <? 0) = false
   /\ (100 <? x) = true /\ (x <? 100) = false).
Proof.
  rewrite !FloatAxioms.ltb_spec, !FloatAxioms.eqb_spec, Prim2SF_0, Prim2SF_100.
  generalize 7036874417766400%positive (-46)%Z. intros M E.
  unfold SFltb, SFeqb, SFcompare.
  destruct (Prim2SF x) as [sz | si | | ss m e].
  - right. right. left. tauto.
  - destruct si; [right; left; tauto | do 5 right; tauto].
  - left. tauto.
  - destruct ss.
    + right. left.
      rewrite Z.compare_refl.
      change (PosDef.Pos.compare_cont Eq m m) with (Pos.compare m m).
      rewrite Pos.compare_refl. tauto.
    + rewrite Z.compare_refl.
      change (PosDef.Pos.compare_cont Eq ?a ?b) with (Pos.compare a b).
      rewrite Pos.compare_refl.
      rewrite (Z.compare_antisym E e), (Pos.compare_antisym M m).
      destruct (Z.compare E e); cbn [CompOpp].
      * destruct (Pos.compare M m); cbn [CompOpp]; tauto.
      * do 5 right. tauto.
      * do 3 right. left. tauto.
Qed.

(** The code's [Math.min(100, Math.max(0, x))] is the clamp of [x] to the
    interval from 0 to 100, for every double. *)
Lemma min_max_is_clamp (x : float) :
  sameValueZero (Math_min 100 (Math_max 0 x)) (clamp x 0 100) = true.
Proof.
  unfold Math_max, Math_min, clamp, sameValueZero, is_nan.
  destruct (compare_0_100 x)
    as [(Hn & H1 & H2 & H3 & H4)
       | [(Hn & H1 & H2 & H3 & H4)
       | [(Hn & H1 & H2 & Hz & H3 & H4)
       | [(Hn & H1 & H2 & H3 & H4)
       | [(Hn & H1 & H2 & H3 & H4) | (Hn & H1 & H2 & H3 & H4)]]]]];
    repeat (rewrite ?Hn, ?H1, ?H2, ?H3, ?H4, ?Hz; cbn);
    rewrite ?orb_true_r; reflexivity.
Qed.

Lemma score_double (a : Analysis) :
  score (generateVisibilityScore a)
  = Math_round
      (citationReadability (metrics a) * 0.5
       + similarity (metrics a) * 0.3
       + Math_min 100 (Math_max 0 (100 - (contentGain (metrics a) - 1) * 50)) * 0.2).
Proof.
  unfold generateVisibilityScore.
  destruct (categorize _). reflexivity.
Qed.

Lemma category_double (a : Analysis) :
  (category (generateVisibilityScore a), description (generateVisibilityScore a))
  = categorize (score (generateVisibilityScore a)).
Proof.
  rewrite score_double.
  unfold generateVisibilityScore.
  destruct (categorize _). reflexivity.
Qed.

Lemma breakdown_double (a : Analysis) :
  breakdown (generateVisibilityScore a)
  = Some {| bd_citationReadability := citationReadability (metrics a);
            bd_similarity := similarity (metrics a);
            bd_contentGain :=
              Math_min 100
                (Math_max 0 (100 - (contentGain (metrics a) - 1) * 50)) |}.
Proof.
  unfold generateVisibilityScore.
  destruct (categorize _). reflexivity.
Qed.

(** The chain of [categorize], by the thresholds a score reaches. *)
Lemma categorize_cases (s : float) :
  ((90 <=? s) = true ->
   categorize s = ("excellent"%string, Analyzer.excellent_description)) /\
  ((70 <=? s) = true -> (90 <=? s) = false ->
   categorize s = ("good"%string, Analyzer.good_description)) /\
  ((50 <=? s) = true -> (70 <=? s) = false ->
   categorize s = ("fair"%string, Analyzer.fair_description)) /\
  ((50 <=? s) = false ->
   categorize s = ("poor"%string, Analyzer.poor_description)).
Proof.
  unfold categorize, geb.
  pose proof (leb_90_70 s) as H97. pose proof (leb_70_50 s) as H75.
  destruct (90 <=? s), (70 <=? s), (50 <=? s);
    repeat split; intros; try reflexivity; try discriminate;
    try (specialize (H97 eq_refl); discriminate);
    try (specialize (H75 eq_refl); discriminate).
Qed.

(** [Math.round], [Math.max] and [Math.min] on the values where they are
    easiest to get wrong: ties go up, a zero result keeps the sign of the
    argument, the largest double below one half rounds to 0, integers above
    [2 ^ 52] and non-finite values are returned as they are, and [+0] is
    above [-0]. *)
Example Math_round_examples :
  Math_round 2.5 = 3 /\ Math_round (-2.5) = -2 /\
  Math_round 0.5 = 1 /\ Math_round (-0.5) = neg_zero /\
  Math_round 0x1.fffffffffffffp-2 = 0 /\
  Math_round 57.5 = 58 /\ Math_round 0x1.cbfffffffffffp+5 = 57 /\
  Math_round 0x1.57fffffffffffp+4 = 21 /\
  Math_round 4503599627370497 = 4503599627370497 /\
  Math_round infinity = infinity /\ is_nan (Math_round nan) = true /\
  Math_max 0 neg_zero = 0 /\ Math_max neg_zero 0 = 0 /\
  Math_min 0 neg_zero = neg_zero /\ Math_min 100 infinity = 100 /\
  is_nan (Math_max 0 nan) = true.
Proof. vm_compute. repeat split. Qed.

(** C1.  [calculateCitationReadability(count1, count2)] returns 100 when
    [count2 == 0], and otherwise [min(100, count1 / count2 * 100)]: for all
    doubles, the word counts among them, with the division, the product and
    the minimum those of JavaScript numbers. *)
Theorem calculateCitationReadability_formula (count1 count2 : float) :
  let r := calculateCitationReadability count1 count2 in
  ((count2 =? 0) = true -> r = 100) /\
  ((count2 =? 0) = false -> r = Math_min 100 (count1 / count2 * 100)).
Proof.
  unfold calculateCitationReadability, eqb. cbv zeta.
  split; intros H; now rewrite H.
Qed.

(** 23 words against 40: the quotient is rounded before the product, and
    the readability is 57.499999999999993, which [Math.round] takes to 57;
    no final word gives 100. *)
Lemma calculateCitationReadability_formula_witness :
  calculateCitationReadability 23 40 = 0x1.cbfffffffffffp+5 /\
  Math_round (calculateCitationReadability 23 40) = 57 /\
  calculateCitationReadability 23 0 = 100.
Proof.
  split; [|split].
  - exact (proj2 (calculateCitationReadability_formula 23 40) eq_refl).
  - reflexivity.
  - exact (proj1 (calculateCitationReadability_formula 23 0) eq_refl).
Defined.

(** C2.  [generateVisibilityScore] returns
    [score = round(0.5 citationReadability + 0.3 similarity + 0.2 normalizedGain)]
    where [normalizedGain] is [100 - (contentGain - 1) 50] clamped to the
    interval from 0 to 100, all in doubles; and the category by inclusive
    lower bounds, 90 and above excellent, 70 and above good, 50 and above
    fair, otherwise poor, each with its description. *)
Theorem generateVisibilityScore_formula (a : Analysis) :
  let m := metrics a in
  let v := generateVisibilityScore a in
  let normalizedGain :=
    Math_min 100 (Math_max 0 (100 - (contentGain m - 1) * 50)) in
  score v
  = Math_round
      (0.5 * citationReadability m + 0.3 * similarity m + 0.2 * normalizedGain) /\
  sameValueZero normalizedGain (clamp (100 - (contentGain m - 1) * 50) 0 100)
  = true /\
  ((90 <=? score v) = true ->
   category v = "excellent"%string /\
   description v
   = "Excellent - AI models can easily read and cite your content"%string) /\
  ((70 <=? score v) = true -> (90 <=? score v) = false ->
   category v = "good"%string /\
   description v = "Good - Most of your content is visible to AI models"%string) /\
  ((50 <=? score v) = true -> (70 <=? score v) = false ->
   category v = "fair"%string /\
   description v = "Fair - Some content may be missed by AI crawlers"%string) /\
  ((50 <=? score v) = false ->
   category v = "poor"%string /\
   description v = "Poor - Significant content is hidden from AI models"%string).
Proof.
  cbv zeta. split; [|split].
  - rewrite score_double.
    now rewrite (mul_comm 0.5), (mul_comm 0.3), (mul_comm 0.2).
  - apply min_max_is_clamp.
  - pose proof (category_double a) as Hc.
    destruct (categorize_cases (score (generateVisibilityScore a)))
      as (He & Hg & Hf & Hp).
    split; [|split; [|split]].
    + intros H. rewrite (He H) in Hc. now inversion Hc.
    + intros H H'. rewrite (Hg H H') in Hc. now inversion Hc.
    + intros H H'. rewrite (Hf H H') in Hc. now inversion Hc.
    + intros H. rewrite (Hp H) in Hc. now inversion Hc.
Qed.

(** 7 words against 19: gain 2.7, readability 37, similarity 0.  The
    normalized gain is 14.999999999999986, the weighted sum
    21.499999999999996, and the score 21, poor. *)
Lemma generateVisibilityScore_formula_witness :
  score (generateVisibilityScore (withMetrics 2.7 37 0)) = 21 /\
  category (generateVisibilityScore (withMetrics 2.7 37 0)) = "poor"%string.
Proof.
  destruct (generateVisibilityScore_formula (withMetrics 2.7 37 0))
    as (Hs & _ & _ & _ & _ & Hp).
  split.
  - rewrite Hs. reflexivity.
  - apply Hp. reflexivity.
Defined.

(** C8.  The [breakdown.contentGain] of the returned score is the
    normalized gain, [100 - (contentGain - 1) 50] clamped to the interval
    from 0 to 100, while the other two entries are the input metrics as they
    are; it is not the raw ratio: a gain of 1 is reported as 100 and a gain
    of 3 as 0. *)
Theorem breakdown_contentGain_is_normalized (a : Analysis) :
  exists b : Breakdown,
    breakdown (generateVisibilityScore a) = Some b /\
    bd_contentGain b
    = Math_min 100 (Math_max 0 (100 - (contentGain (metrics a) - 1) * 50)) /\
    sameValueZero (bd_contentGain b)
      (clamp (100 - (contentGain (metrics a) - 1) * 50) 0 100) = true /\
    bd_citationReadability b = citationReadability (metrics a) /\
    bd_similarity b = similarity (metrics a) /\
    (contentGain (metrics a) = 1 -> bd_contentGain b = 100) /\
    (contentGain (metrics a) = 3 -> bd_contentGain b = 0).
Proof.
  eexists. split; [apply breakdown_double|].
  cbn [bd_contentGain bd_citationReadability bd_similarity].
  split; [reflexivity|]. split; [apply min_max_is_clamp|].
  split; [reflexivity|]. split; [reflexivity|].
  split; intros H; rewrite H; reflexivity.
Qed.

(** At gain 2.7 the breakdown holds 14.999999999999986, neither 2.7 nor
    15. *)
Lemma breakdown_contentGain_is_normalized_witness :
  exists b : Breakdown,
    breakdown (generateVisibilityScore (withMetrics 2.7 37 0)) = Some b /\
    bd_contentGain b = 0x1.dfffffffffff8p+3 /\
    (bd_contentGain b =? 2.7) = false /\
    (bd_contentGain b =? 15) = false.
Proof.
  destruct (breakdown_contentGain_is_normalized (withMetrics 2.7 37 0))
    as (b & Hb & Hv & _).
  exists b. split; [exact Hb|]. rewrite Hv.
  split; [reflexivity|]. split; reflexivity.
Defined.

End DoubleFacts.

(** ** Similarity *)

Module DiffEngineFacts.
Import DiffEngine.

Lemma dp_0_l (s1 s2 : list string) (j : nat) : dp s1 s2 0 j = 0%nat.
Proof. reflexivity. Qed.

Lemma dp_0_r (s1 s2 : list string) (i : nat) : dp s1 s2 i 0 = 0%nat.
Proof. destruct i; reflexivity. Qed.

Lemma dp_S_S (s1 s2 : list string) (i j : nat) :
  dp s1 s2 (S i) (S j)
  = if String.eqb (nth i s1 EmptyString) (nth j s2 EmptyString)
    then S (dp s1 s2 i j)
    else Nat.max (dp s1 s2 i (S j)) (dp s1 s2 (S i) j).
Proof. reflexivity. Qed.

(** The table of [(s2, s1)] is the transpose of the table of [(s1, s2)]. *)
Lemma dp_transpose (s1 s2 : list string) (i j : nat) :
  dp s1 s2 i j = dp s2 s1 j i.
Proof.
  revert j. induction i as [|i IHi]; intros j.
  - now rewrite dp_0_l, dp_0_r.
  - induction j as [|j IHj].
    + now rewrite dp_0_l, dp_0_r.
    + rewrite !dp_S_S, String.eqb_sym.
      rewrite (IHi j), (IHi (S j)), IHj.
      now rewrite Nat.max_comm.
Qed.


Lemma lcsLength_sym (s1 s2 : list string) : lcsLength s1 s2 = lcsLength s2 s1.
Proof. apply dp_transpose. Qed.

Lemma tokens_eqb_refl (s : list string) : tokens_eqb s s = true.
Proof. unfold tokens_eqb. now destruct (list_eq_dec string_dec s s). Qed.

Lemma tokens_eqb_sym (s1 s2 : list string) : tokens_eqb s1 s2 = tokens_eqb s2 s1.
Proof.
  unfold tokens_eqb.
  destruct (list_eq_dec string_dec s1 s2), (list_eq_dec string_dec s2 s1);
    congruence.
Qed.

Section WithExternals.
Context {E : Externals}.

(** A text is fully similar to itself. *)
Lemma calculateSimilarity_refl (t : string) (mode : Mode) :
  calculateSimilarity t t mode = 100.
Proof. unfold calculateSimilarity. now rewrite tokens_eqb_refl. Qed.

(** C6.  [calculateSimilarity(t1, t2)] equals [calculateSimilarity(t2, t1)]
    for every pair of texts: the similarity is symmetric under swapping its
    two inputs. *)
Theorem calculateSimilarity_sym (t1 t2 : string) (mode : Mode) :
  calculateSimilarity t1 t2 mode = calculateSimilarity t2 t1 mode.
Proof.
  unfold calculateSimilarity.
  rewrite (tokens_eqb_sym (tokenize t1 mode)), (lcsLength_sym (tokenize t1 mode)).
  destruct (tokens_eqb _ _); [reflexivity|].
  destruct (Nat.eqb _ 0); [reflexivity|].
  f_equal. apply JSFacts.Math_round_comp.
  rewrite (Qplus_comm (JS.of_nat (List.length (tokenize t1 mode)))).
  reflexivity.
Qed.

End WithExternals.

(** The three similarities the test suite checks. *)
Example calculateSimilarity_examples :
  calculateSimilarity (E := PlainText.env)
    "This is a test text" "This is a test text" word == 100 /\
  calculateSimilarity (E := PlainText.env)
    "This is a test" "This is another test" word == 75 /\
  calculateSimilarity (E := PlainText.env)
    "Hello world" "Goodbye universe" word == 0.
Proof. repeat split; vm_compute; reflexivity. Qed.

End DiffEngineFacts.

(** ** [analyzeContentDifference] *)

Module ContentDifferenceFacts.
Import Analyzer.

Lemma round1_one : round1 1 == 1.
Proof. apply (round1_Z 1 1). reflexivity. Qed.

Lemma self_ratio (n : nat) : (0 < n)%nat -> JS.of_nat n / JS.of_nat n == 1.
Proof.
  intros H. pose proof (JSFacts.of_nat_pos n H). field. lra.
Qed.

Lemma readability_of_equal_counts (n : nat) :
  calculateCitationReadability (JS.of_nat n) (JS.of_nat n) == 100.
Proof.
  destruct n as [|n].
  - now rewrite AnalyzerFacts.readability_no_final_words.
  - rewrite AnalyzerFacts.readability_some_final_words by discriminate.
    unfold JS.Math_min. rewrite self_ratio by lia. reflexivity.
Qed.

Lemma readability_of_no_initial_words (n : nat) :
  calculateCitationReadability (JS.of_nat 0) (JS.of_nat n)
  == if Nat.eqb n 0 then 100 else 0.
Proof.
  destruct n as [|n].
  - now rewrite AnalyzerFacts.readability_no_final_words.
  - rewrite AnalyzerFacts.readability_some_final_words by discriminate.
    simpl Nat.eqb. cbv iota. unfold JS.Math_min.
    rewrite JSFacts.of_nat_0.
    assert (Hz : 0 / JS.of_nat (S n) * 100 == 0).
    { unfold Qdiv. now rewrite !Qmult_0_l. }
    rewrite Hz. reflexivity.
Qed.

Section WithExternals.
Context {E : Externals}.

Lemma stripTagsToText_empty (ignoreNavFooter : bool) :
  HtmlFilter.stripTagsToText EmptyString ignoreNavFooter = EmptyString.
Proof. reflexivity. Qed.

Section Counts.
Variables (initHtml finHtml : string) (options : Options).

(** The word-token counts of the two extracted texts. *)
Let count1 : nat :=
  List.length
    (tokenize
       (HtmlFilter.stripTagsToText initHtml (default_true (ignoreNavFooter options)))
       word).
Let count2 : nat :=
  List.length
    (tokenize
       (HtmlFilter.stripTagsToText finHtml (default_true (ignoreNavFooter options)))
       word).

Lemma contentGain_analyzeContentDifference :
  contentGain (metrics (analyzeContentDifference initHtml finHtml options))
  = round1 (if JS.gtb (JS.of_nat count1) 0
            then JS.of_nat count2 / JS.of_nat count1 else 1).
Proof. reflexivity. Qed.

Lemma missingWords_analyzeContentDifference :
  missingWords (metrics (analyzeContentDifference initHtml finHtml options))
  = JS.Math_abs (JS.of_nat count2 - JS.of_nat count1).
Proof. reflexivity. Qed.

Lemma citationReadability_analyzeContentDifference :
  citationReadability (metrics (analyzeContentDifference initHtml finHtml options))
  = JS.Math_round
      (calculateCitationReadability (JS.of_nat count1) (JS.of_nat count2)).
Proof. reflexivity. Qed.

Lemma similarity_analyzeContentDifference :
  similarity (metrics (analyzeContentDifference initHtml finHtml options))
  = round1
      (DiffEngine.calculateSimilarity
         (HtmlFilter.stripTagsToText initHtml (default_true (ignoreNavFooter options)))
         (HtmlFilter.stripTagsToText finHtml (default_true (ignoreNavFooter options)))
         word).
Proof. reflexivity. Qed.

(** C4, as the code has it.  The [contentGain] of the returned metrics is the
    ratio [count2 / count1] rounded to one decimal when the first text has
    [count1 > 0] word tokens, and 1 when it has none. *)
Theorem contentGain_rounded_ratio :
  let g := contentGain (metrics (analyzeContentDifference initHtml finHtml options)) in
  ((0 < count1)%nat -> g == round1 (JS.of_nat count2 / JS.of_nat count1)) /\
  (count1 = 0%nat -> g == 1).
Proof.
  cbv zeta. rewrite contentGain_analyzeContentDifference.
  rewrite JSFacts.gtb_of_nat_0.
  split; intros H.
  - destruct count1; [lia|]. reflexivity.
  - rewrite H. simpl negb. cbv iota. apply round1_one.
Qed.

End Counts.

(** C3, as the code has it.  With an empty first input (and a tokenizer that
    finds no word in the empty text), [analyzeContentDifference] returns
    [contentGain] 1, hence at least 1, and a [citationReadability] that is
    100 when the second text has no word token and 0 when it has one. *)
Theorem empty_initial_content (h : string) (options : Options)
    (tokenize_empty : tokenize EmptyString word = []) :
  let a := analyzeContentDifference EmptyString h options in
  let count2 :=
    List.length
      (tokenize
         (HtmlFilter.stripTagsToText h (default_true (ignoreNavFooter options)))
         word) in
  contentGain (metrics a) == 1 /\
  1 <= contentGain (metrics a) /\
  citationReadability (metrics a) == (if Nat.eqb count2 0 then 100 else 0).
Proof.
  cbv zeta.
  rewrite contentGain_analyzeContentDifference,
    citationReadability_analyzeContentDifference.
  rewrite stripTagsToText_empty, tokenize_empty.
  change (List.length (@nil string)) with 0%nat.
  assert (Hg : round1 (if JS.gtb (JS.of_nat 0) 0
                       then JS.of_nat
                              (List.length
                                 (tokenize
                                    (HtmlFilter.stripTagsToText h
                                       (default_true (ignoreNavFooter options)))
                                    word)) / JS.of_nat 0
                       else 1) == 1) by apply round1_one.
  split; [exact Hg|]. split; [rewrite Hg; lra|].
  set (n := List.length _).
  pose proof (readability_of_no_initial_words n) as Hr.
  destruct (Nat.eqb n 0).
  - now rewrite (JSFacts.Math_round_eqZ _ 100 Hr).
  - now rewrite (JSFacts.Math_round_eqZ _ 0 Hr).
Qed.

(** C5.  On identical inputs [analyzeContentDifference] yields [contentGain]
    1, [missingWords] 0 and [citationReadability] 100, and
    [generateVisibilityScore] of the result has a score above 90. *)
Theorem identical_inputs (h : string) (options : Options) :
  let a := analyzeContentDifference h h options in
  contentGain (metrics a) == 1 /\
  missingWords (metrics a) == 0 /\
  citationReadability (metrics a) == 100 /\
  90 < score (generateVisibilityScore a).
Proof.
  cbv zeta.
  assert (Hg : contentGain (metrics (analyzeContentDifference h h options)) == 1).
  { rewrite contentGain_analyzeContentDifference.
    set (n := List.length _).
    rewrite JSFacts.gtb_of_nat_0.
    destruct n as [|n]; simpl negb; cbv iota.
    - apply round1_one.
    - apply (round1_Z _ 1). apply self_ratio. lia. }
  assert (Hr : citationReadability (metrics (analyzeContentDifference h h options))
               = 100).
  { rewrite citationReadability_analyzeContentDifference.
    apply (JSFacts.Math_round_eqZ _ 100), readability_of_equal_counts. }
  assert (Hs : similarity (metrics (analyzeContentDifference h h options)) == 100).
  { rewrite similarity_analyzeContentDifference,
      DiffEngineFacts.calculateSimilarity_refl.
    apply (round1_Z 100 100). reflexivity. }
  split; [exact Hg|]. split; [|split].
  - rewrite missingWords_analyzeContentDifference.
    set (n := JS.of_nat _). unfold JS.Math_abs.
    assert (H0 : n - n == 0) by ring.
    rewrite H0. reflexivity.
  - rewrite Hr. reflexivity.
  - rewrite AnalyzerFacts.score_generateVisibilityScore.
    rewrite (JSFacts.Math_round_eqZ _ 100); [reflexivity|].
    rewrite min_max_clamp, Hr, Hs.
    rewrite (clamp_comp _ 100) by (rewrite Hg; ring).
    reflexivity.
Qed.

End WithExternals.

(** C3 as stated fails: the empty text against a one-word text has
    readability 0, not 100. *)
Lemma empty_initial_readability_not_100 :
  let a :=
    analyzeContentDifference (E := PlainText.env)
      EmptyString "hello" PlainText.defaults in
  "hello"%string <> EmptyString /\
  citationReadability (metrics a) == 0 /\
  ~ citationReadability (metrics a) == 100.
Proof.
  cbv zeta. split; [discriminate|]. split.
  - vm_compute. reflexivity.
  - vm_compute. discriminate.
Qed.

Lemma empty_initial_content_witness :
  let a :=
    analyzeContentDifference (E := PlainText.env)
      EmptyString "hello" PlainText.defaults in
  contentGain (metrics a) == 1 /\
  1 <= contentGain (metrics a) /\
  citationReadability (metrics a) == 0.
Proof.
  exact (empty_initial_content (E := PlainText.env) "hello" PlainText.defaults
           eq_refl).
Defined.

(** C4 as stated fails: three words against one word have [contentGain] 0.3,
    not 1/3. *)
Lemma contentGain_not_exact_ratio :
  let a :=
    analyzeContentDifference (E := PlainText.env)
      "a b c" "a" PlainText.defaults in
  List.length (PlainText.tokenize "a b c" word) = 3%nat /\
  List.length (PlainText.tokenize "a" word) = 1%nat /\
  contentGain (metrics a) == 0.3 /\
  ~ contentGain (metrics a) == JS.of_nat 1 / JS.of_nat 3.
Proof.
  cbv zeta. split; [|split; [|split]].
  - vm_compute. reflexivity.
  - vm_compute. reflexivity.
  - vm_compute. reflexivity.
  - vm_compute. discriminate.
Qed.

Lemma contentGain_rounded_ratio_witness :
  let g :=
    contentGain
      (metrics
         (analyzeContentDifference (E := PlainText.env)
            "a b c" "a" PlainText.defaults)) in
  g == round1 (JS.of_nat 1 / JS.of_nat 3) /\
  contentGain
    (metrics
       (analyzeContentDifference (E := PlainText.env)
          EmptyString "a" PlainText.defaults)) == 1.
Proof.
  split.
  - apply (contentGain_rounded_ratio (E := PlainText.env)
             "a b c" "a" PlainText.defaults).
    vm_compute. lia.
  - apply (contentGain_rounded_ratio (E := PlainText.env)
             EmptyString "a" PlainText.defaults).
    reflexivity.
Defined.

End ContentDifferenceFacts.

(** ** [src/index.js] *)

Module IndexFacts.
Import Analyzer Index.

Lemma praise_condition (m : Metrics) :
  JS.geb (citationReadability m) 80 && JS.ltb (contentGain m) 1.5 = true
  <-> 80 <= citationReadability m /\ contentGain m < 1.5.
Proof. now rewrite andb_true_iff, JSFacts.geb_le, JSFacts.ltb_lt. Qed.

(** The code's sequence of conditional pushes is a filter of the rule
    table. *)
Lemma generateRecommendations_firedRules (m : Metrics) :
  generateRecommendations m = firedRules m.
Proof.
  unfold generateRecommendations, firedRules, ruleTable, push_if.
  cbn [filter map fst snd].
  destruct (JS.ltb (citationReadability m) 50),
           (JS.gtb (contentGain m) 3),
           (JS.gtb (missingWords m) 1000),
           (JS.geb (citationReadability m) 80 && JS.ltb (contentGain m) 1.5);
    reflexivity.
Qed.

Lemma messages_distinct :
  NoDup [ssr_recommendation; javascript_recommendation;
         missing_recommendation; praise_recommendation].
Proof.
  repeat constructor; cbn [In]; intros H;
    repeat (destruct H as [H | H]; [discriminate H|]); exact H.
Qed.

(** C7.  The recommendations are the messages of a fixed rule table, each
    rule tested on its own and every rule that applies adding its message, in
    the order of the table: readability under 50 adds the server-side
    rendering advice, gain over 3 the client-side loading flag, more than
    1000 missing words the content-gap flag, and readability of at least 80
    with gain under 1.5 the acknowledgment. *)
Theorem generateRecommendations_rule_table (m : Metrics) :
  generateRecommendations m = firedRules m /\
  (In ssr_recommendation (generateRecommendations m)
   <-> citationReadability m < 50) /\
  (In javascript_recommendation (generateRecommendations m)
   <-> 3 < contentGain m) /\
  (In missing_recommendation (generateRecommendations m)
   <-> 1000 < missingWords m) /\
  (In praise_recommendation (generateRecommendations m)
   <-> 80 <= citationReadability m /\ contentGain m < 1.5).
Proof.
  split; [apply generateRecommendations_firedRules|].
  rewrite <- praise_condition, <- JSFacts.ltb_lt, <- !JSFacts.gtb_lt.
  unfold generateRecommendations, push_if.
  destruct (JS.ltb (citationReadability m) 50),
           (JS.gtb (contentGain m) 3),
           (JS.gtb (missingWords m) 1000),
           (JS.geb (citationReadability m) 80 && JS.ltb (contentGain m) 1.5);
    cbn [app In];
    repeat split; intros H; try reflexivity; try discriminate H; auto;
    repeat (destruct H as [H | H]; [discriminate H|]); try contradiction.
Qed.

(** Two rules can fire together, in table order. *)
Example generateRecommendations_two_rules :
  generateRecommendations
    {| contentGain := 4; missingWords := 1500; citationReadability := 25;
       similarity := 20;
       wordCount := {| initial := 500; final := 2000; difference := 1500 |} |}
  = [ssr_recommendation; javascript_recommendation; missing_recommendation].
Proof. reflexivity. Qed.

Lemma categorize_in_categories (s : Q) : In (fst (categorize s)) categories.
Proof.
  unfold categorize, categories.
  destruct (JS.geb s 90); [cbn; tauto|].
  destruct (JS.geb s 70); [cbn; tauto|].
  destruct (JS.geb s 50); cbn; tauto.
Qed.

Section WithExternals.
Context {E : Externals}.

Lemma contentGain_analyzeVisibility (initialHtml renderedHtml : string)
    (options : Options) :
  let inf := default_true (ignoreNavFooter options) in
  let words1 :=
    JS.of_nat (Tokenizer.countWords (HtmlFilter.stripTagsToText initialHtml inf)) in
  let words2 :=
    JS.of_nat (Tokenizer.countWords (HtmlFilter.stripTagsToText renderedHtml inf)) in
  contentGain (va_metrics (analyzeVisibility initialHtml renderedHtml options))
  = round1 (if JS.gtb words1 0 then words2 / words1
            else if JS.gtb words2 0 then words2 else 1).
Proof. reflexivity. Qed.

(** C9, as the code has it.  When the initial text has no word and the
    final text has [n > 0] words, [analyzeVisibility] reports [contentGain]
    equal to [n], the final word count itself, which is not 1 unless [n]
    is. *)
Theorem analyzeVisibility_gain_from_empty (initialHtml renderedHtml : string)
    (options : Options) (n : nat) :
  let inf := default_true (ignoreNavFooter options) in
  Tokenizer.countWords (HtmlFilter.stripTagsToText initialHtml inf) = 0%nat ->
  Tokenizer.countWords (HtmlFilter.stripTagsToText renderedHtml inf) = n ->
  (0 < n)%nat ->
  let g :=
    contentGain (va_metrics (analyzeVisibility initialHtml renderedHtml options)) in
  g == JS.of_nat n /\ ((1 < n)%nat -> ~ g == 1).
Proof.
  intros inf H1 H2 Hn g. subst g inf.
  rewrite contentGain_analyzeVisibility. cbv zeta.
  rewrite H1, H2, !JSFacts.gtb_of_nat_0.
  destruct n as [|n]; [lia|]. simpl negb. cbv iota.
  assert (Hg : round1 (JS.of_nat (S n)) == JS.of_nat (S n))
    by (apply round1_Z; reflexivity).
  split; [exact Hg|].
  intros Hlt. rewrite Hg. unfold JS.of_nat.
  change 1 with (inject_Z 1). rewrite inject_Z_injective. lia.
Qed.

(** C10.  Called with the score switched off, [getCitationReadiness] returns
    score 0, category unknown and the description of a completed analysis;
    that category is none of the four named ones. *)
Theorem getCitationReadiness_without_score (initialHtml renderedHtml : string)
    (ignoreNavFooter : option bool) :
  let r :=
    getCitationReadiness initialHtml renderedHtml
      {| Analyzer.ignoreNavFooter := ignoreNavFooter;
         includeScore := Some false |} in
  cr_score r = 0 /\
  cr_category r = "unknown"%string /\
  cr_description r = "Analysis completed"%string /\
  ~ In (cr_category r) categories.
Proof.
  cbv zeta. split; [reflexivity|]. split; [reflexivity|]. split; [reflexivity|].
  change (~ In "unknown"%string categories).
  unfold categories. cbn [In]. intros H.
  repeat (destruct H as [H | H]; [discriminate H|]). exact H.
Qed.

(** With the score on (the default), the category is one of the four. *)
Lemma getCitationReadiness_with_score (initialHtml renderedHtml : string) :
  In (cr_category
        (getCitationReadiness initialHtml renderedHtml
           {| Analyzer.ignoreNavFooter := None; includeScore := None |}))
     categories.
Proof.
  unfold getCitationReadiness, analyzeVisibility.
  cbn [default_true includeScore Analyzer.ignoreNavFooter va_visibilityScore].
  set (s := JS.Math_round _).
  pose proof (categorize_in_categories s) as Hc.
  destruct (categorize s) as [c d]. cbn [fst] in Hc.
  cbn [option_map category JS.or_str].
  unfold categories in *. cbn [In] in Hc.
  destruct Hc as [<- | [<- | [<- | [<- | []]]]]; cbn; tauto.
Qed.

End WithExternals.

Lemma analyzeVisibility_gain_from_empty_witness :
  let g :=
    contentGain
      (va_metrics
         (analyzeVisibility (E := PlainText.env)
            EmptyString "hello world" PlainText.defaults)) in
  g == 2 /\ ((1 < 2)%nat -> ~ g == 1).
Proof.
  apply (analyzeVisibility_gain_from_empty (E := PlainText.env)
           EmptyString "hello world" PlainText.defaults 2).
  - reflexivity.
  - reflexivity.
  - lia.
Defined.

(** C9 as stated fails at [n = 1]: no word against one word has
    [contentGain] 1. *)
Lemma gain_from_empty_is_1_for_one_word :
  let g :=
    contentGain
      (va_metrics
         (analyzeVisibility (E := PlainText.env)
            EmptyString "hello" PlainText.defaults)) in
  Tokenizer.countWords (E := PlainText.env)
    (HtmlFilter.stripTagsToText (E := PlainText.env) EmptyString true) = 0%nat /\
  Tokenizer.countWords (E := PlainText.env)
    (HtmlFilter.stripTagsToText (E := PlainText.env) "hello" true) = 1%nat /\
  g == 1 /\
  ~ (~ g == 1).
Proof.
  cbv zeta.
  assert (H : contentGain
                (va_metrics
                   (analyzeVisibility (E := PlainText.env)
                      EmptyString "hello" PlainText.defaults)) == 1)
    by (vm_compute; reflexivity).
  split; [reflexivity|]. split; [reflexivity|]. split; [exact H|].
  intros Hn. exact (Hn H).
Qed.

End IndexFacts.

(** * Part III: further properties of the code *)

(** ** [hashDJB2] *)

Module UtilsFacts.
Import Utils.

Local Open Scope Z_scope.

Lemma toInt32_mod (z : Z) : toInt32 z mod 2 ^ 32 = z mod 2 ^ 32.
Proof.
  unfold toInt32. cbv zeta.
  destruct (z mod 2 ^ 32 <? 2 ^ 31).
  - apply Z.mod_mod. lia.
  - rewrite <- (Z.mod_add _ 1 (2 ^ 32)) by lia.
    replace (z mod 2 ^ 32 - 2 ^ 32 + 1 * 2 ^ 32) with (z mod 2 ^ 32) by ring.
    apply Z.mod_mod. lia.
Qed.

Lemma toInt32_range (z : Z) : - 2 ^ 31 <= toInt32 z < 2 ^ 31.
Proof.
  unfold toInt32. cbv zeta.
  pose proof (Z.mod_pos_bound z (2 ^ 32) ltac:(lia)).
  destruct (Z.ltb_spec (z mod 2 ^ 32) (2 ^ 31)); lia.
Qed.

Lemma shiftLeft_5_mod (h : Z) : shiftLeft h 5 mod 2 ^ 32 = (h * 32) mod 2 ^ 32.
Proof.
  unfold shiftLeft. rewrite toInt32_mod, Z.shiftl_mul_pow2 by lia.
  change (2 ^ 5) with 32.
  rewrite <- Z.mul_mod_idemp_l, toInt32_mod, Z.mul_mod_idemp_l by lia.
  reflexivity.
Qed.

Lemma shiftLeft_range (h k : Z) : - 2 ^ 31 <= shiftLeft h k < 2 ^ 31.
Proof. apply toInt32_range. Qed.

Lemma charCode_range (c : ascii) : 0 <= charCode c < 256.
Proof.
  unfold charCode. pose proof (nat_ascii_bounded c). lia.
Qed.

(** One turn of the loop is one turn of the textbook recurrence, modulo
    [2 ^ 32]. *)
Lemma hash_step_mod (h h' c : Z) :
  h mod 2 ^ 32 = h' mod 2 ^ 32 ->
  (shiftLeft h 5 + h + c) mod 2 ^ 32 = (h' * 33 + c) mod 2 ^ 32.
Proof.
  intros H.
  rewrite <- Z.add_mod_idemp_l, <- (Z.add_mod_idemp_l (h' * 33)) by lia.
  f_equal. f_equal.
  rewrite Z.add_mod, shiftLeft_5_mod, H by lia.
  rewrite <- (Z.mul_mod_idemp_l h), H, Z.mul_mod_idemp_l by lia.
  rewrite <- Z.add_mod by lia.
  f_equal. ring.
Qed.

Lemma hashLoop_djb2 (str : string) (h h' : Z) :
  h mod 2 ^ 32 = h' mod 2 ^ 32 ->
  hashLoop h str mod 2 ^ 32 = djb2 h' str mod 2 ^ 32.
Proof.
  revert h h'. induction str as [|c rest IH]; intros h h' H.
  - exact H.
  - cbn [hashLoop djb2]. apply IH. now apply hash_step_mod.
Qed.

(** The accumulator moves by less than [2 ^ 32] a character. *)
Lemma hashLoop_bound (str : string) (h : Z) :
  Z.abs (hashLoop h str) <= Z.abs h + 2 ^ 32 * Z.of_nat (String.length str).
Proof.
  revert h. induction str as [|c rest IH]; intros h.
  - cbn [hashLoop String.length]. lia.
  - cbn [hashLoop String.length].
    specialize (IH (shiftLeft h 5 + h + charCode c)).
    pose proof (shiftLeft_range h 5). pose proof (charCode_range c).
    lia.
Qed.

Lemma length_append (p q : string) :
  String.length (p ++ q) = (String.length p + String.length q)%nat.
Proof. induction p as [|c p IH]; cbn; [reflexivity | now rewrite IH]. Qed.

(** Hexadecimal digits. *)

Lemma hexValue_hexDigit (d : Z) : 0 <= d < 16 -> hexValue (hexDigit d) = d.
Proof.
  intros H.
  assert (Hd : d = 0 \/ d = 1 \/ d = 2 \/ d = 3 \/ d = 4 \/ d = 5 \/ d = 6 \/ d = 7
               \/ d = 8 \/ d = 9 \/ d = 10 \/ d = 11 \/ d = 12 \/ d = 13
               \/ d = 14 \/ d = 15) by lia.
  repeat (destruct Hd as [-> | Hd]; [reflexivity|]). now subst d.
Qed.

Lemma parseHex_hexDigits (fuel : nat) (n : Z) (acc : string) :
  (0 < fuel)%nat -> 0 <= n < 16 ^ Z.of_nat fuel ->
  parseHex (hexDigits fuel n acc)
  = n * 16 ^ Z.of_nat (String.length acc) + parseHex acc.
Proof.
  revert n acc. induction fuel as [|fuel IH]; intros n acc Hf Hn; [lia|].
  cbn [hexDigits]. cbv zeta.
  pose proof (Z.mod_pos_bound n 16 ltac:(lia)) as Hm.
  pose proof (Z.div_mod n 16 ltac:(lia)) as Hdm.
  destruct (Z.eqb_spec (n / 16) 0) as [Hq | Hq].
  - cbn [parseHex]. rewrite hexValue_hexDigit by lia.
    replace (n mod 16) with n by lia. reflexivity.
  - assert (Hq' : 0 < n / 16) by (pose proof (Z.div_pos n 16); lia).
    assert (Hlt : n / 16 < 16 ^ Z.of_nat fuel).
    { apply Z.div_lt_upper_bound; [lia|].
      rewrite Nat2Z.inj_succ, Z.pow_succ_r in Hn by lia. lia. }
    assert (Hfuel : (0 < fuel)%nat).
    { destruct fuel; [|lia]. cbn in Hlt. lia. }
    rewrite IH by (try assumption; lia).
    cbn [parseHex String.length].
    rewrite hexValue_hexDigit by lia.
    rewrite Nat2Z.inj_succ, Z.pow_succ_r by lia.
    set (p := 16 ^ Z.of_nat (String.length acc)).
    rewrite Hdm at 3. ring.
Qed.

Lemma toString16_fuel (n : Z) :
  0 <= n -> n < 16 ^ Z.of_nat (S (Z.to_nat (Z.log2 n))).
Proof.
  intros Hn.
  rewrite Nat2Z.inj_succ, Z2Nat.id by apply Z.log2_nonneg.
  destruct (Z.eq_dec n 0) as [-> | Hz]; [reflexivity|].
  pose proof (Z.log2_spec n ltac:(lia)) as [_ Hu].
  eapply Z.lt_le_trans; [exact Hu|].
  pose proof (Z.log2_nonneg n).
  replace 16 with (2 ^ 4) by reflexivity.
  rewrite <- Z.pow_mul_r by lia.
  apply Z.pow_le_mono_r; lia.
Qed.

Lemma length_hexDigits_ge (fuel : nat) (n : Z) (acc : string) :
  (String.length acc <= String.length (hexDigits fuel n acc))%nat.
Proof.
  revert n acc. induction fuel as [|fuel IH]; intros n acc; cbn [hexDigits].
  - lia.
  - cbv zeta. destruct (n / 16 =? 0).
    + cbn [String.length]. lia.
    + specialize (IH (n / 16) (String (hexDigit (n mod 16)) acc)).
      cbn [String.length] in IH. lia.
Qed.

Lemma length_hexDigits_le (fuel k : nat) (n : Z) (acc : string) :
  (0 < k)%nat -> 0 <= n < 16 ^ Z.of_nat k ->
  (String.length (hexDigits fuel n acc) <= k + String.length acc)%nat.
Proof.
  revert k n acc. induction fuel as [|fuel IH]; intros k n acc Hk Hn;
    cbn [hexDigits].
  - lia.
  - cbv zeta. destruct (Z.eqb_spec (n / 16) 0) as [Hq | Hq].
    + cbn [String.length]. lia.
    + assert (Hq' : 0 < n / 16) by (pose proof (Z.div_pos n 16); lia).
      destruct k as [|k]; [lia|].
      assert (Hlt : n / 16 < 16 ^ Z.of_nat k).
      { apply Z.div_lt_upper_bound; [lia|].
        rewrite Nat2Z.inj_succ, Z.pow_succ_r in Hn by lia. lia. }
      assert (Hk' : (0 < k)%nat).
      { destruct k; [|lia]. cbn in Hlt. lia. }
      specialize (IH k (n / 16) (String (hexDigit (n mod 16)) acc) Hk'
                    ltac:(lia)).
      cbn [String.length] in IH. lia.
Qed.

(** X5.  Reading the digits of [n.toString(16)] back gives [n]. *)
Theorem parseHex_toString16 (n : Z) : 0 <= n -> parseHex (toString16 n) = n.
Proof.
  intros Hn. unfold toString16.
  rewrite parseHex_hexDigits.
  - cbn [String.length parseHex]. change (16 ^ Z.of_nat 0) with 1. ring.
  - lia.
  - split; [exact Hn | now apply toString16_fuel].
Qed.

Lemma parseHex_toString16_witness : parseHex (toString16 48879) = 48879.
Proof. apply (parseHex_toString16 48879). lia. Defined.

Lemma length_toString16 (n : Z) :
  0 <= n < 2 ^ 32 -> (1 <= String.length (toString16 n) <= 8)%nat.
Proof.
  intros Hn. unfold toString16. split.
  - cbn [hexDigits]. cbv zeta. destruct (n / 16 =? 0).
    + cbn [String.length]. lia.
    + pose proof (length_hexDigits_ge (Z.to_nat (Z.log2 n)) (n / 16)
                    (String (hexDigit (n mod 16)) EmptyString)) as H.
      cbn [String.length] in H. lia.
  - pose proof (length_hexDigits_le (S (Z.to_nat (Z.log2 n))) 8 n EmptyString
                  ltac:(lia)) as H.
    cbn [String.length] in H. rewrite Nat.add_0_r in H. apply H.
    change (16 ^ Z.of_nat 8) with (2 ^ 32). exact Hn.
Qed.

Lemma toUint32_range (z : Z) : 0 <= toUint32 z < 2 ^ 32.
Proof. apply Z.mod_pos_bound. lia. Qed.

Lemma parseHex_toString16_uint32 (z : Z) :
  parseHex (toString16 (toUint32 z)) = z mod 2 ^ 32.
Proof.
  unfold toString16. rewrite parseHex_hexDigits.
  - cbn [String.length parseHex]. change (16 ^ Z.of_nat 0) with 1.
    unfold toUint32. ring.
  - lia.
  - split; [apply toUint32_range | apply toString16_fuel, toUint32_range].
Qed.

(** X1.  For a non-empty text shorter than [2 ^ 21] characters, where the
    accumulator of the loop is an exactly represented integer, the hash
    string read as a hexadecimal number is the textbook DJB2 hash
    ([h = h * 33 + c] from 5381) modulo [2 ^ 32]: wrapping only the shift, as
    the loop does, loses nothing. *)
Theorem hashDJB2_textbook (c : ascii) (rest : string) :
  Z.of_nat (String.length (String c rest)) < 2 ^ 21 ->
  Z.abs (hashLoop 5381 (String c rest)) < 2 ^ 53 /\
  parseHex (hashDJB2 (String c rest)) = djb2 5381 (String c rest) mod 2 ^ 32.
Proof.
  intros Hlen. split.
  - pose proof (hashLoop_bound (String c rest) 5381). lia.
  - unfold hashDJB2, unsignedShiftRight0.
    rewrite parseHex_toString16_uint32.
    now apply hashLoop_djb2.
Qed.

Lemma hashDJB2_textbook_witness :
  Z.abs (hashLoop 5381 "hello") < 2 ^ 53 /\
  parseHex (hashDJB2 "hello") = djb2 5381 "hello" mod 2 ^ 32.
Proof. apply (hashDJB2_textbook "h" "ello"). cbn. lia. Defined.

(** X2.  The hash is the empty string for the empty text only, and otherwise has
    one to eight hexadecimal digits. *)
Theorem hashDJB2_length (str : string) :
  (hashDJB2 str = EmptyString <-> str = EmptyString) /\
  (String.length (hashDJB2 str) <= 8)%nat.
Proof.
  destruct str as [|c rest].
  - cbn. split; [tauto | lia].
  - pose proof (length_toString16 (toUint32 (hashLoop 5381 (String c rest)))
                  (toUint32_range _)) as [Hl Hu].
    unfold hashDJB2, unsignedShiftRight0.
    split; [|exact Hu].
    split; intros H; [|discriminate H].
    rewrite H in Hl. cbn in Hl. lia.
Qed.

(** X3.  Two non-empty texts, each shorter than [2 ^ 21] characters, get
    the same hash string exactly when their textbook DJB2 hashes agree modulo
    [2 ^ 32]. *)
Theorem hashDJB2_collision (c1 c2 : ascii) (r1 r2 : string) :
  Z.of_nat (String.length (String c1 r1)) < 2 ^ 21 ->
  Z.of_nat (String.length (String c2 r2)) < 2 ^ 21 ->
  (hashDJB2 (String c1 r1) = hashDJB2 (String c2 r2)
   <-> djb2 5381 (String c1 r1) mod 2 ^ 32 = djb2 5381 (String c2 r2) mod 2 ^ 32).
Proof.
  intros _ _.
  unfold hashDJB2, unsignedShiftRight0.
  rewrite <- !(hashLoop_djb2 _ 5381 5381 eq_refl).
  split; intros H.
  - apply (f_equal parseHex) in H.
    now rewrite !parseHex_toString16_uint32 in H.
  - unfold toUint32. now rewrite H.
Qed.

(** [ab] and [bA] collide: 33 * 97 + 98 = 33 * 98 + 65. *)
Lemma hashDJB2_collision_witness : hashDJB2 "ab" = hashDJB2 "bA".
Proof.
  apply (hashDJB2_collision "a" "b" "b" "A"); [cbn; lia | cbn; lia | reflexivity].
Defined.

(** X4.  While a text is shorter than [2 ^ 21] characters, the accumulator of the
    loop stays, after every character, within the integers a JavaScript
    number holds exactly (below [2 ^ 53] in magnitude). *)
Theorem hashLoop_exact (prefix suffix : string) :
  Z.of_nat (String.length (prefix ++ suffix)) < 2 ^ 21 ->
  Z.abs (hashLoop 5381 prefix) < 2 ^ 53.
Proof.
  intros H. rewrite length_append in H.
  pose proof (hashLoop_bound prefix 5381). lia.
Qed.

Lemma hashLoop_exact_witness : Z.abs (hashLoop 5381 "hello") < 2 ^ 53.
Proof. apply (hashLoop_exact "hello" " world"). cbn. lia. Defined.

End UtilsFacts.

(** ** White space clean-up and [extractWordCount] *)

Module TextFilterFacts.
Import TextFilter.

Lemma wordStarts_true (s : string) :
  wordStarts true s
  = ((if startsWithWord s then 1 else 0) + wordStarts false s)%nat.
Proof.
  destruct s as [|c rest]; [reflexivity|].
  cbn [wordStarts startsWithWord]. now destruct (isSpace c).
Qed.

Lemma wordStarts_after_space (b : bool) (s : string) :
  startsWithWord s = false -> wordStarts b s = wordStarts true s.
Proof.
  destruct s as [|c rest]; [reflexivity|].
  cbn [wordStarts startsWithWord]. destruct (isSpace c); [reflexivity|].
  discriminate.
Qed.

Lemma splitSpaces_cons (s : string) :
  exists piece pieces,
    splitSpaces s = piece :: pieces /\ nonEmpty piece = startsWithWord s.
Proof.
  induction s as [|c rest IH].
  - now exists EmptyString, [].
  - cbn [splitSpaces startsWithWord].
    destruct IH as (p & ps & Hs & Hp).
    destruct (isSpace c) eqn:Hc.
    + destruct rest as [|c' rest'].
      * now exists EmptyString, [EmptyString].
      * cbn [startsWithWord] in Hp.
        destruct (isSpace c') eqn:Hc'.
        -- exists p, ps. now rewrite Hs, Hp.
        -- now exists EmptyString, (splitSpaces (String c' rest')).
    + rewrite Hs. now exists (String c p), ps.
Qed.

(** The pieces after the first, and all the pieces, counted without the
    empty ones. *)
Lemma splitSpaces_tail_count (s : string) :
  List.length (filter nonEmpty (tl (splitSpaces s))) = wordStarts false s.
Proof.
  induction s as [|c rest IH]; [reflexivity|].
  cbn [splitSpaces wordStarts].
  destruct (isSpace c) eqn:Hc.
  - destruct rest as [|c' rest']; [reflexivity|].
    destruct (isSpace c') eqn:Hc'.
    + rewrite IH. cbn [wordStarts]. now rewrite Hc'.
    + cbn [tl].
      destruct (splitSpaces_cons (String c' rest')) as (p & ps & Hs & Hp).
      rewrite Hs in IH |- *. cbn [tl] in IH.
      cbn [filter]. rewrite Hp. cbn [startsWithWord]. rewrite Hc'.
      cbn [negb List.length]. rewrite IH.
      cbn [wordStarts]. now rewrite Hc'.
  - destruct (splitSpaces_cons rest) as (p & ps & Hs & _).
    rewrite Hs in IH |- *. exact IH.
Qed.

Lemma splitSpaces_count (s : string) :
  List.length (filter nonEmpty (splitSpaces s)) = wordStarts true s.
Proof.
  rewrite wordStarts_true, <- splitSpaces_tail_count.
  destruct (splitSpaces_cons s) as (p & ps & Hs & Hp).
  rewrite Hs. cbn [filter tl]. rewrite Hp.
  now destruct (startsWithWord s).
Qed.

Lemma wordStarts_trimStart (s : string) :
  wordStarts true (trimStart s) = wordStarts true s.
Proof.
  induction s as [|c rest IH]; [reflexivity|].
  cbn [trimStart]. destruct (isSpace c) eqn:Hc; [|reflexivity].
  rewrite IH. cbn [wordStarts]. now rewrite Hc.
Qed.

Lemma wordStarts_trimEnd (s : string) (b : bool) :
  wordStarts b (trimEnd s) = wordStarts b s.
Proof.
  revert b. induction s as [|c rest IH]; intros b; [reflexivity|].
  cbn [trimEnd].
  destruct (trimEnd rest) as [|c' rest'] eqn:Ht.
  - destruct (isSpace c) eqn:Hc.
    + cbn [wordStarts]. rewrite Hc. now rewrite <- IH.
    + cbn [wordStarts]. rewrite Hc. now rewrite <- (IH false).
  - cbn [wordStarts]. destruct (isSpace c); now rewrite <- IH.
Qed.

Lemma wordStarts_trim (s : string) :
  wordStarts true (trim s) = wordStarts true s.
Proof. unfold trim. now rewrite wordStarts_trimEnd, wordStarts_trimStart. Qed.

Lemma wordStarts_collapseSpaces (s : string) (b : bool) :
  wordStarts b (collapseSpaces s) = wordStarts b s.
Proof.
  revert b. induction s as [|c rest IH]; intros b; [reflexivity|].
  cbn [collapseSpaces].
  destruct (isSpace c) eqn:Hc.
  - destruct rest as [|c' rest'].
    + cbn [wordStarts]. now rewrite Hc.
    + destruct (isSpace c') eqn:Hc'.
      * rewrite IH. cbn [wordStarts]. now rewrite Hc, Hc'.
      * change (wordStarts b (String " " (collapseSpaces (String c' rest'))))
          with (wordStarts true (collapseSpaces (String c' rest'))).
        rewrite IH. cbn [wordStarts]. now rewrite Hc.
  - cbn [wordStarts]. rewrite Hc. now rewrite IH.
Qed.

Lemma wordStarts_blank (s : string) (b : bool) :
  wordStarts b s = 0%nat <-> (blank s = true \/ (b = false /\ wordStarts false s = 0%nat)).
Proof.
  revert b. induction s as [|c rest IH]; intros b.
  - cbn. tauto.
  - cbn [wordStarts blank]. destruct (isSpace c) eqn:Hc; cbn [andb].
    + rewrite IH. intuition congruence.
    + destruct b; cbn; split; intros H; try lia; try tauto;
        destruct H as [H | [H1 H2]]; first [discriminate | lia].
Qed.

Lemma wordStarts_zero (s : string) :
  wordStarts true s = 0%nat <-> blank s = true.
Proof.
  rewrite wordStarts_blank. split; [|tauto].
  intros [H | [H _]]; [exact H | discriminate].
Qed.

Section WithParsers.
Variable P : Parsers.

(** X6.  [extractWordCount] counts the maximal runs of characters that are not
    white space in the extracted text: the [trim] before the split changes
    nothing, and the count is 0 exactly when that text is blank. *)
Theorem extractWordCount_counts_words (htmlContent : string)
    (ignoreNavFooter : bool) :
  let text := stripTagsToText P htmlContent ignoreNavFooter in
  extractWordCount P htmlContent ignoreNavFooter = wordStarts true text /\
  extractWordCount P htmlContent ignoreNavFooter
  = List.length (filter nonEmpty (splitSpaces text)) /\
  (extractWordCount P htmlContent ignoreNavFooter = 0%nat <-> blank text = true).
Proof.
  cbv zeta.
  assert (H : extractWordCount P htmlContent ignoreNavFooter
              = wordStarts true (stripTagsToText P htmlContent ignoreNavFooter)).
  { unfold extractWordCount.
    destruct htmlContent as [|c rest]; [reflexivity|].
    cbv zeta. now rewrite splitSpaces_count, wordStarts_trim. }
  split; [exact H|]. split.
  - now rewrite H, splitSpaces_count.
  - rewrite H. apply wordStarts_zero.
Qed.

(** X7.  Under Node.js the count is that of cheerio's raw text: the white space
    clean-up of [filterHtmlContent] neither adds nor removes a word. *)
Theorem extractWordCount_node (c : ascii) (rest : string)
    (ignoreNavFooter : bool) :
  domAvailable P = false ->
  extractWordCount P (String c rest) ignoreNavFooter
  = wordStarts true (cheerioText P (String c rest) ignoreNavFooter).
Proof.
  intros Hdom. unfold extractWordCount. cbv zeta.
  rewrite splitSpaces_count, wordStarts_trim.
  unfold stripTagsToText, filterHtmlContent. rewrite Hdom.
  now rewrite wordStarts_trim, wordStarts_collapseSpaces.
Qed.

End WithParsers.

Lemma tidy_true_start (s : string) :
  tidy true s = true -> s = EmptyString \/ startsWithWord s = true.
Proof.
  destruct s as [|c rest]; [now left|].
  cbn [tidy startsWithWord]. destruct (isSpace c); [|now right].
  rewrite andb_false_r. discriminate.
Qed.

Lemma tidy_collapseSpaces (s : string) :
  tidy false (collapseSpaces s) = true /\
  (startsWithWord s = true -> tidy true (collapseSpaces s) = true).
Proof.
  induction s as [|c rest [IH1 IH2]]; [now split|].
  cbn [collapseSpaces startsWithWord].
  destruct (isSpace c) eqn:Hc.
  - split; [|discriminate].
    destruct rest as [|c' rest']; [reflexivity|].
    destruct (isSpace c') eqn:Hc'; [exact IH1|].
    change (tidy true (collapseSpaces (String c' rest')) = true).
    apply IH2. cbn [startsWithWord]. now rewrite Hc'.
  - cbn [tidy]. rewrite Hc. now split.
Qed.

Lemma trimStart_fixed (s : string) :
  s = EmptyString \/ startsWithWord s = true -> trimStart s = s.
Proof.
  intros [-> | H]; [reflexivity|].
  destruct s as [|c rest]; [reflexivity|].
  cbn [startsWithWord] in H. cbn [trimStart].
  now destruct (isSpace c).
Qed.

Lemma trimStart_start (s : string) :
  trimStart s = EmptyString \/ startsWithWord (trimStart s) = true.
Proof.
  induction s as [|c rest IH]; [now left|].
  cbn [trimStart]. destruct (isSpace c) eqn:Hc; [exact IH|].
  right. cbn [startsWithWord]. now rewrite Hc.
Qed.

Lemma tidy_trimStart (s : string) :
  tidy false s = true -> tidy true (trimStart s) = true.
Proof.
  destruct s as [|c rest]; [reflexivity|].
  cbn [tidy trimStart]. destruct (isSpace c) eqn:Hc.
  - rewrite !andb_true_iff. intros [_ Ht].
    now rewrite (trimStart_fixed rest (tidy_true_start rest Ht)).
  - intros Ht. cbn [tidy]. now rewrite Hc.
Qed.

Lemma cleanFrom_trimEnd (s : string) (b : bool) :
  tidy b s = true ->
  trimEnd s = EmptyString \/ cleanFrom b (trimEnd s) = true.
Proof.
  revert b. induction s as [|c rest IH]; intros b; [now left|].
  cbn [tidy trimEnd]. destruct (isSpace c) eqn:Hc.
  - rewrite !andb_true_iff. intros [[Hsp Hb] Ht].
    destruct (IH true Ht) as [He | Hcl].
    + rewrite He. now left.
    + destruct (trimEnd rest) as [|c' rest']; [discriminate Hcl|].
      right. remember (String c' rest') as t.
      cbn [cleanFrom]. now rewrite Hc, Hsp, Hb, Hcl.
  - intros Ht. right.
    destruct (IH false Ht) as [He | Hcl].
    + rewrite He. cbn [cleanFrom]. now rewrite Hc.
    + destruct (trimEnd rest) as [|c' rest'].
      * cbn [cleanFrom]. now rewrite Hc.
      * remember (String c' rest') as t. cbn [cleanFrom]. now rewrite Hc.
Qed.

Lemma clean_trim_collapseSpaces (s : string) :
  clean (trim (collapseSpaces s)) = true.
Proof.
  unfold trim.
  pose proof (tidy_trimStart _ (proj1 (tidy_collapseSpaces s))) as Ht.
  destruct (cleanFrom_trimEnd _ true Ht) as [He | Hcl].
  - now rewrite He.
  - unfold clean. now destruct (trimEnd _).
Qed.

Lemma cleanFrom_fixed (s : string) (b : bool) :
  cleanFrom b s = true -> collapseSpaces s = s /\ trimEnd s = s.
Proof.
  revert b. induction s as [|c rest IH]; intros b; [now split|].
  cbn [cleanFrom collapseSpaces trimEnd]. destruct (isSpace c) eqn:Hc.
  - rewrite !andb_true_iff. intros [[Hsp _] Ht].
    apply Ascii.eqb_eq in Hsp. subst c.
    destruct (IH true Ht) as [IHc IHt]. rewrite IHt.
    destruct rest as [|c' rest']; [discriminate Ht|].
    cbn [cleanFrom] in Ht.
    destruct (isSpace c') eqn:Hc'.
    + rewrite andb_false_r in Ht. discriminate Ht.
    + now rewrite IHc.
  - intros Ht. destruct (IH false Ht) as [IHc IHt]. rewrite IHc, IHt.
    split; [reflexivity|]. now destruct rest.
Qed.

Lemma clean_start (s : string) :
  clean s = true -> s = EmptyString \/ startsWithWord s = true.
Proof.
  destruct s as [|c rest]; [now left|].
  cbn [clean cleanFrom startsWithWord]. destruct (isSpace c); [|now right].
  rewrite andb_false_r. discriminate.
Qed.

Lemma clean_fixed (s : string) :
  clean s = true -> trim (collapseSpaces s) = s.
Proof.
  intros H. pose proof (clean_start s H) as Hs.
  destruct s as [|c rest]; [reflexivity|].
  cbn [clean] in H. destruct (cleanFrom_fixed _ _ H) as [Hc Ht].
  unfold trim. rewrite Hc, (trimStart_fixed _ Hs). exact Ht.
Qed.

(** X8.  The clean-up [replace(/\s+/g, ' ').trim()] leaves a text with single
    spaces between its words and none at its ends, and running it again
    changes nothing. *)
Theorem whitespace_cleanup_idempotent (s : string) :
  clean (trim (collapseSpaces s)) = true /\
  trim (collapseSpaces (trim (collapseSpaces s))) = trim (collapseSpaces s).
Proof.
  split; [apply clean_trim_collapseSpaces|].
  apply clean_fixed, clean_trim_collapseSpaces.
Qed.

(** X9.  Under Node.js every text [stripTagsToText] returns is clean, whatever
    cheerio extracted. *)
Theorem stripTagsToText_node_clean (P : Parsers) (htmlContent : string)
    (ignoreNavFooter : bool) :
  domAvailable P = false ->
  clean (stripTagsToText P htmlContent ignoreNavFooter) = true.
Proof.
  intros Hdom. unfold stripTagsToText, filterHtmlContent.
  destruct htmlContent as [|c rest]; [reflexivity|].
  rewrite Hdom. apply clean_trim_collapseSpaces.
Qed.

Lemma trimEnd_idempotent (s : string) : trimEnd (trimEnd s) = trimEnd s.
Proof.
  induction s as [|c rest IH]; [reflexivity|].
  cbn [trimEnd]. destruct (trimEnd rest) as [|c' rest'] eqn:Ht.
  - destruct (isSpace c) eqn:Hc; [reflexivity|].
    cbn [trimEnd]. now rewrite Hc.
  - change (trimEnd (String c (String c' rest')))
      with (match trimEnd (String c' rest') with
            | EmptyString => if isSpace c then EmptyString else String c EmptyString
            | r => String c r
            end).
    now rewrite IH.
Qed.

Lemma startsWithWord_trimEnd (s : string) :
  startsWithWord s = true -> startsWithWord (trimEnd s) = true.
Proof.
  destruct s as [|c rest]; [discriminate|].
  cbn [startsWithWord trimEnd]. intros Hc.
  destruct (trimEnd rest); [|exact Hc].
  apply negb_true_iff in Hc. rewrite Hc. cbn [startsWithWord]. now rewrite Hc.
Qed.

Lemma splitSpaces_tail_nonEmpty (s : string) :
  trimEnd s = s -> forallb nonEmpty (tl (splitSpaces s)) = true.
Proof.
  induction s as [|c rest IH]; [reflexivity|].
  cbn [trimEnd splitSpaces]. intros Ht.
  assert (Hrest : trimEnd rest = rest).
  { destruct (trimEnd rest) as [|c' rest'] eqn:Hr.
    - destruct (isSpace c); [discriminate Ht|]. now inversion Ht.
    - now inversion Ht. }
  specialize (IH Hrest).
  destruct (isSpace c) eqn:Hc.
  - destruct rest as [|c' rest'].
    + cbn [trimEnd] in Ht. discriminate Ht.
    + destruct (isSpace c') eqn:Hc'; [exact IH|].
      cbn [tl].
      destruct (splitSpaces_cons (String c' rest')) as (p & ps & Hs & Hp).
      rewrite Hs in IH |- *. cbn [tl] in IH. cbn [forallb].
      rewrite Hp, IH. cbn [startsWithWord]. now rewrite Hc'.
  - destruct (splitSpaces_cons rest) as (p & ps & Hs & _).
    rewrite Hs in IH |- *. exact IH.
Qed.

(** X10.  After [trim] the split has no empty piece unless the text is empty, so
    the [filter] of [extractWordCount] only ever removes the single empty
    piece of an empty text. *)
Theorem filter_after_trim (s : string) :
  filter nonEmpty (splitSpaces (trim s))
  = match trim s with
    | EmptyString => []
    | _ => splitSpaces (trim s)
    end.
Proof.
  destruct (trim s) as [|c rest] eqn:Ht; [reflexivity|].
  rewrite <- Ht.
  assert (Hend : trimEnd (trim s) = trim s) by apply trimEnd_idempotent.
  assert (Hstart : startsWithWord (trim s) = true).
  { unfold trim. destruct (trimStart_start s) as [He | Hw].
    - unfold trim in Ht. rewrite He in Ht. discriminate Ht.
    - now apply startsWithWord_trimEnd. }
  pose proof (splitSpaces_tail_nonEmpty _ Hend) as Htl.
  destruct (splitSpaces_cons (trim s)) as (p & ps & Hs & Hp).
  rewrite Hs in Htl |- *. cbn [tl] in Htl.
  cbn [filter]. rewrite Hp, Hstart. f_equal.
  clear - Htl. induction ps as [|q qs IH]; [reflexivity|].
  cbn [forallb filter] in *. apply andb_true_iff in Htl as [Hq Hqs].
  rewrite Hq. f_equal. now apply IH.
Qed.

Lemma extractWordCount_node_witness :
  extractWordCount nodeParsers "  two   words " true = 2%nat.
Proof.
  exact (extractWordCount_node nodeParsers " " " two   words " true eq_refl).
Defined.

Lemma stripTagsToText_node_clean_witness :
  clean (stripTagsToText nodeParsers "  two   words " true) = true.
Proof.
  exact (stripTagsToText_node_clean nodeParsers "  two   words " true eq_refl).
Defined.

End TextFilterFacts.

(** ** The visibility score *)

Module ScoreFacts.
Import Analyzer.

Lemma Math_round_mono (x y : Q) : x <= y -> JS.Math_round x <= JS.Math_round y.
Proof.
  intros H. unfold JS.Math_round. rewrite <- Zle_Qle.
  apply Qfloor_resp_le. lra.
Qed.











End ScoreFacts.

(** ** The metrics of [analyzeContentDifference] *)

Module MetricsFacts.
Import Analyzer.

Lemma of_nat_le (m n : nat) : (m <= n)%nat <-> JS.of_nat m <= JS.of_nat n.
Proof. unfold JS.of_nat. rewrite <- Zle_Qle. lia. Qed.

Lemma of_nat_eq (m n : nat) : m = n <-> JS.of_nat m == JS.of_nat n.
Proof. unfold JS.of_nat. rewrite inject_Z_injective. lia. Qed.

Lemma round1_mono (x y : Q) : x <= y -> round1 x <= round1 y.
Proof.
  intros H. unfold round1.
  assert (Hr : JS.Math_round (x * 10) <= JS.Math_round (y * 10))
    by (apply ScoreFacts.Math_round_mono; lra).
  unfold Qdiv. apply Qmult_le_compat_r; [exact Hr|]. now compute.
Qed.

Lemma ratio_ge_1 (m n : nat) :
  (0 < m)%nat -> (m <= n)%nat -> 1 <= JS.of_nat n / JS.of_nat m.
Proof.
  intros Hm Hmn. apply Qle_shift_div_l.
  - now apply JSFacts.of_nat_pos.
  - rewrite Qmult_1_l. now apply of_nat_le.
Qed.

Lemma ratio_le_1 (m n : nat) :
  (0 < m)%nat -> (n <= m)%nat -> JS.of_nat n / JS.of_nat m <= 1.
Proof.
  intros Hm Hmn. apply Qle_shift_div_r.
  - now apply JSFacts.of_nat_pos.
  - rewrite Qmult_1_l. now apply of_nat_le.
Qed.


Section WithExternals.
Context {E : Externals}.
Variables (initHtml finHtml : string) (options : Options).

Let count1 : nat :=
  List.length
    (tokenize
       (HtmlFilter.stripTagsToText initHtml (default_true (ignoreNavFooter options)))
       word).
Let count2 : nat :=
  List.length
    (tokenize
       (HtmlFilter.stripTagsToText finHtml (default_true (ignoreNavFooter options)))
       word).


(** X15.  [missingWords] is 0 exactly when the two texts have the same number of
    words; [contentGain] is at least 1 when the final text has at least as
    many words as the initial one, and at most 1 when it has at most as
    many. *)
Theorem word_balance :
  let m := metrics (analyzeContentDifference initHtml finHtml options) in
  (missingWords m == 0 <-> count1 = count2) /\
  ((count1 <= count2)%nat -> 1 <= contentGain m) /\
  ((count2 <= count1)%nat -> contentGain m <= 1).
Proof.
  cbv zeta.
  rewrite ContentDifferenceFacts.contentGain_analyzeContentDifference,
    ContentDifferenceFacts.missingWords_analyzeContentDifference.
  fold count1 count2. rewrite JSFacts.gtb_of_nat_0.
  split; [|split].
  - unfold JS.Math_abs. rewrite (of_nat_eq count1 count2).
    split; intros H.
    + revert H. apply Qabs_case; intros; lra.
    + rewrite H. setoid_replace (JS.of_nat count2 - JS.of_nat count2) with 0 by ring.
      reflexivity.
  - intros Hle. apply Qle_trans with (round1 1);
      [rewrite ContentDifferenceFacts.round1_one; lra|].
    apply round1_mono.
    destruct count1 as [|n1]; cbn [Nat.eqb negb]; [lra|].
    apply ratio_ge_1; lia.
  - intros Hle. apply Qle_trans with (round1 1);
      [|rewrite ContentDifferenceFacts.round1_one; lra].
    apply round1_mono.
    destruct count1 as [|n1]; cbn [Nat.eqb negb]; [lra|].
    apply ratio_le_1; lia.
Qed.

End WithExternals.


Lemma word_balance_witness :
  1 <= contentGain
         (metrics (analyzeContentDifference (E := PlainText.env)
                     "one two" "one two three" PlainText.defaults)).
Proof.
  apply (word_balance (E := PlainText.env)
           "one two" "one two three" PlainText.defaults).
  vm_compute. lia.
Defined.

End MetricsFacts.

(** ** [analyzeBothScenarios] *)

Module ScenariosFacts.
Import Analyzer Scenarios.

Section WithExternals.
Context {E : Externals}.

(** X16.  The scenario with navigation and footer ignored is the analysis under
    the default options; and when ignoring them changes neither extracted
    text, the two scenarios coincide. *)
Theorem scenarios_coincide (initHtml finHtml : string) :
  fullAnalysis (withNavFooterIgnored (analyzeBothScenarios initHtml finHtml))
  = analyzeContentDifference initHtml finHtml
      {| ignoreNavFooter := None; includeScore := None |} /\
  (HtmlFilter.stripTagsToText initHtml true = HtmlFilter.stripTagsToText initHtml false ->
   HtmlFilter.stripTagsToText finHtml true = HtmlFilter.stripTagsToText finHtml false ->
   withNavFooterIgnored (analyzeBothScenarios initHtml finHtml)
   = withoutNavFooterIgnored (analyzeBothScenarios initHtml finHtml)).
Proof.
  split; [reflexivity|].
  intros Hi Hf.
  unfold analyzeBothScenarios, analyzeContentDifference. cbv zeta.
  cbn [ignoreNavFooter default_true withNavFooterIgnored withoutNavFooterIgnored].
  now rewrite Hi, Hf.
Qed.

End WithExternals.

Lemma scenarios_coincide_witness :
  withNavFooterIgnored
    (analyzeBothScenarios (E := PlainText.env) "one two" "one two three")
  = withoutNavFooterIgnored
      (analyzeBothScenarios (E := PlainText.env) "one two" "one two three").
Proof.
  apply (scenarios_coincide (E := PlainText.env) "one two" "one two three");
    reflexivity.
Defined.

End ScenariosFacts.

(** ** [src/browser.js] *)

Module BrowserFacts.
Import Analyzer.

Section WithExternals.
Context {E : Externals}.

Lemma browser_readability (n1 n2 : nat) :
  (if JS.gtb (JS.of_nat n2) 0
   then JS.Math_min 100 ((JS.of_nat n1 / JS.of_nat n2) * 100) else 100)
  = calculateCitationReadability (JS.of_nat n1) (JS.of_nat n2).
Proof.
  unfold calculateCitationReadability.
  rewrite JSFacts.gtb_of_nat_0, JSFacts.eqb_of_nat_0.
  now destruct (Nat.eqb n2 0).
Qed.

Lemma same_text_metrics (h : string) (options : Options) :
  let m := metrics (analyzeContentDifference h h options) in
  contentGain m == 1 /\ missingWords m == 0 /\ citationReadability m == 100.
Proof.
  cbv zeta.
  rewrite ContentDifferenceFacts.contentGain_analyzeContentDifference,
    ContentDifferenceFacts.missingWords_analyzeContentDifference,
    ContentDifferenceFacts.citationReadability_analyzeContentDifference.
  set (n := List.length _).
  split; [|split].
  - rewrite JSFacts.gtb_of_nat_0.
    destruct n as [|n]; cbn [Nat.eqb negb].
    + apply ContentDifferenceFacts.round1_one.
    + apply (round1_Z _ 1), ContentDifferenceFacts.self_ratio. lia.
  - unfold JS.Math_abs.
    setoid_replace (JS.of_nat n - JS.of_nat n) with 0 by ring. reflexivity.
  - now rewrite (JSFacts.Math_round_eqZ _ 100
                   (ContentDifferenceFacts.readability_of_equal_counts n)).
Qed.

(** X17.  Where a DOM is available, the browser build's [analyzeContentDifference]
    returns the texts and metrics of the one in [src/analyzer.js]. *)
Theorem browser_analysis_agrees (initHtml finHtml : string) (options : Options) :
  Browser.analyzeContentDifference true initHtml finHtml options
  = Browser.Return (analyzeContentDifference initHtml finHtml options).
Proof.
  unfold Browser.analyzeContentDifference, analyzeContentDifference.
  cbv zeta.
  set (inf := default_true (ignoreNavFooter options)).
  assert (Hs : forall html,
             Browser.stripTagsToText true html inf
             = Browser.Return (HtmlFilter.stripTagsToText html inf)).
  { intros html. now destruct html. }
  rewrite !Hs. cbn [Browser.bind].
  unfold Tokenizer.countWords. rewrite browser_readability. reflexivity.
Qed.

(** X18.  Without a DOM the browser build throws its environment error as soon as
    one input is not empty, and only then: two empty inputs are analysed
    without touching the parser. *)
Theorem browser_throws_without_dom (initHtml finHtml : string)
    (options : Options) :
  (initHtml <> EmptyString \/ finHtml <> EmptyString ->
   Browser.analyzeContentDifference false initHtml finHtml options
   = Browser.Throw Browser.environmentError) /\
  (initHtml = EmptyString /\ finHtml = EmptyString ->
   exists a : Analysis,
     Browser.analyzeContentDifference false initHtml finHtml options
     = Browser.Return a /\
     contentGain (metrics a) == 1 /\
     missingWords (metrics a) == 0 /\
     citationReadability (metrics a) == 100).
Proof.
  split.
  - intros H. unfold Browser.analyzeContentDifference. cbv zeta.
    destruct initHtml as [|c1 r1]; [|reflexivity].
    destruct finHtml as [|c2 r2]; [|reflexivity].
    destruct H as [H | H]; now elim H.
  - intros [-> ->].
    exists (analyzeContentDifference EmptyString EmptyString options).
    split.
    + unfold Browser.analyzeContentDifference, analyzeContentDifference.
      cbv zeta. cbn [Browser.stripTagsToText Browser.filterHtmlContent Browser.bind].
      unfold Tokenizer.countWords. rewrite browser_readability. reflexivity.
    + apply same_text_metrics.
Qed.

End WithExternals.

Lemma browser_throws_without_dom_witness :
  Browser.analyzeContentDifference (E := PlainText.env) false
    "hello" EmptyString PlainText.defaults
  = Browser.Throw Browser.environmentError.
Proof.
  apply (browser_throws_without_dom (E := PlainText.env)
           "hello" EmptyString PlainText.defaults).
  left. discriminate.
Defined.

End BrowserFacts.

(** ** The entry points of [src/index.js] *)

Module EntryFacts.
Import Analyzer Index.

Lemma or_str_categorize (s : Q) (d1 d2 : string) :
  JS.or_str (Some (fst (categorize s))) d1 = fst (categorize s) /\
  JS.or_str (Some (snd (categorize s))) d2 = snd (categorize s).
Proof.
  unfold categorize.
  destruct (JS.geb s 90); [now split|].
  destruct (JS.geb s 70); [now split|].
  destruct (JS.geb s 50); now split.
Qed.

Lemma or_num_self (x : Q) : JS.or_num (Some x) 0 == x.
Proof.
  unfold JS.or_num. destruct (Qeq_bool x 0) eqn:H; [|reflexivity].
  apply Qeq_bool_iff in H. now rewrite H.
Qed.

Section WithExternals.
Context {E : Externals}.
Variables (initialHtml renderedHtml : string) (options : Options).

Let words1 : nat :=
  List.length
    (tokenize
       (HtmlFilter.stripTagsToText initialHtml
          (default_true (ignoreNavFooter options))) word).
Let words2 : nat :=
  List.length
    (tokenize
       (HtmlFilter.stripTagsToText renderedHtml
          (default_true (ignoreNavFooter options))) word).

(** The weighted sum [analyzeVisibility] rounds into its score. *)
Let rawScore : Q :=
  (if JS.eqb (JS.of_nat words1) 0 then 100
   else if JS.gtb (JS.of_nat words2) 0
        then JS.Math_min 100 ((JS.of_nat words1 / JS.of_nat words2) * 100)
        else 0) * 0.5
  + DiffEngine.calculateSimilarity
      (HtmlFilter.stripTagsToText initialHtml (default_true (ignoreNavFooter options)))
      (HtmlFilter.stripTagsToText renderedHtml (default_true (ignoreNavFooter options)))
      word * 0.3
  + JS.Math_min 100
      (JS.Math_max 0
         (100 - ((if JS.gtb (JS.of_nat words1) 0
                  then JS.of_nat words2 / JS.of_nat words1
                  else if JS.gtb (JS.of_nat words2) 0 then JS.of_nat words2 else 1)
                 - 1) * 50)) * 0.2.

Lemma visibilityScore_analyzeVisibility :
  va_visibilityScore (analyzeVisibility initialHtml renderedHtml options)
  = if default_true (includeScore options)
    then Some {| score := JS.Math_round rawScore;
                 category := fst (categorize (JS.Math_round rawScore));
                 description := snd (categorize (JS.Math_round rawScore));
                 breakdown := None |}
    else None.
Proof.
  unfold analyzeVisibility. cbv zeta. cbn [va_visibilityScore].
  destruct (default_true (includeScore options)); [|reflexivity].
  fold words1 words2. unfold Tokenizer.countWords. fold words1 words2.
  fold rawScore. now destruct (categorize (JS.Math_round rawScore)).
Qed.



(** X20.  When the score is asked for, [getCitationReadiness] hands on the score,
    category and description of [analyzeVisibility] unchanged: none of its
    fallbacks replaces a computed value. *)
Theorem getCitationReadiness_passes_score :
  includeScore options <> Some false ->
  exists v : VisibilityScore,
    va_visibilityScore (analyzeVisibility initialHtml renderedHtml options)
    = Some v /\
    cr_score (getCitationReadiness initialHtml renderedHtml options) == score v /\
    cr_category (getCitationReadiness initialHtml renderedHtml options)
    = category v /\
    cr_description (getCitationReadiness initialHtml renderedHtml options)
    = description v.
Proof.
  intros Hinc.
  assert (Ht : default_true (includeScore options) = true).
  { destruct (includeScore options) as [[|]|]; try reflexivity. now elim Hinc. }
  unfold getCitationReadiness. cbv zeta.
  cbn [cr_score cr_category cr_description].
  rewrite visibilityScore_analyzeVisibility, Ht.
  eexists. split; [reflexivity|].
  cbn [option_map score category description].
  destruct (or_str_categorize (JS.Math_round rawScore)
              "unknown" "Analysis completed") as [Hc Hd].
  rewrite Hc, Hd. split; [apply or_num_self | now split].
Qed.

(** X21.  [quickCompare] always reports the gain, missing words and similarity of
    [analyzeContentDifference]; [analyzeVisibility] reports the same metrics
    when both texts have words or neither has. *)
Theorem entry_points_agree :
  let m := metrics (analyzeContentDifference initialHtml renderedHtml options) in
  let q := quickCompare initialHtml renderedHtml options in
  (qc_contentGain q = contentGain m /\
   qc_missingWords q = missingWords m /\
   qc_similarity q = similarity m /\
   qc_wordCount q = wordCount m) /\
  (((0 < words1)%nat /\ (0 < words2)%nat) \/ (words1 = 0%nat /\ words2 = 0%nat) ->
   va_metrics (analyzeVisibility initialHtml renderedHtml options) = m).
Proof.
  cbv zeta. split; [now repeat split|].
  intros H.
  unfold analyzeVisibility, analyzeContentDifference, calculateCitationReadability.
  cbv zeta. cbn [va_metrics metrics].
  unfold Tokenizer.countWords. fold words1 words2.
  rewrite !JSFacts.gtb_of_nat_0, !JSFacts.eqb_of_nat_0.
  destruct H as [[H1 H2] | [H1 H2]].
  - destruct words1; [lia|]. destruct words2; [lia|]. reflexivity.
  - rewrite H1, H2. reflexivity.
Qed.

(** X22.  When exactly one of the two texts has no word, the two analyses report
    opposite readabilities: with no initial word [analyzeVisibility] says
    100 and [analyzeContentDifference] 0; with no final word it is the
    other way round. *)
Theorem entry_points_differ :
  let rv :=
    citationReadability
      (va_metrics (analyzeVisibility initialHtml renderedHtml options)) in
  let ra :=
    citationReadability
      (metrics (analyzeContentDifference initialHtml renderedHtml options)) in
  (words1 = 0%nat -> (0 < words2)%nat -> rv == 100 /\ ra == 0) /\
  ((0 < words1)%nat -> words2 = 0%nat -> rv == 0 /\ ra == 100).
Proof.
  cbv zeta.
  unfold analyzeVisibility, analyzeContentDifference, calculateCitationReadability.
  cbv zeta. cbn [va_metrics metrics citationReadability].
  unfold Tokenizer.countWords. fold words1 words2.
  rewrite !JSFacts.gtb_of_nat_0, !JSFacts.eqb_of_nat_0.
  split; intros H1 H2.
  - rewrite H1. destruct words2 as [|n]; [lia|].
    cbn [Nat.eqb negb]. split; [reflexivity|].
    rewrite (JSFacts.Math_round_eqZ _ 0); [reflexivity|].
    rewrite JSFacts.of_nat_0. unfold JS.Math_min.
    assert (Hz : 0 / JS.of_nat (S n) * 100 == 0)
      by (unfold Qdiv; now rewrite !Qmult_0_l).
    now rewrite Hz.
  - rewrite H2. destruct words1 as [|n]; [lia|].
    cbn [Nat.eqb negb]. now split.
Qed.

End WithExternals.

Lemma getCitationReadiness_passes_score_witness :
  exists v : VisibilityScore,
    va_visibilityScore
      (analyzeVisibility (E := PlainText.env) "one two" "one two three"
         PlainText.defaults) = Some v /\
    cr_score
      (getCitationReadiness (E := PlainText.env) "one two" "one two three"
         PlainText.defaults) == score v /\
    cr_category
      (getCitationReadiness (E := PlainText.env) "one two" "one two three"
         PlainText.defaults) = category v /\
    cr_description
      (getCitationReadiness (E := PlainText.env) "one two" "one two three"
         PlainText.defaults) = description v.
Proof.
  apply (getCitationReadiness_passes_score (E := PlainText.env)
           "one two" "one two three" PlainText.defaults).
  discriminate.
Defined.

Lemma entry_points_agree_witness :
  va_metrics
    (analyzeVisibility (E := PlainText.env) "one two" "one two three"
       PlainText.defaults)
  = metrics
      (analyzeContentDifference (E := PlainText.env) "one two" "one two three"
         PlainText.defaults).
Proof.
  apply (entry_points_agree (E := PlainText.env) "one two" "one two three"
           PlainText.defaults).
  left. vm_compute. lia.
Defined.

Lemma entry_points_differ_witness :
  citationReadability
    (va_metrics
       (analyzeVisibility (E := PlainText.env) "one two" EmptyString
          PlainText.defaults)) == 0 /\
  citationReadability
    (metrics
       (analyzeContentDifference (E := PlainText.env) "one two" EmptyString
          PlainText.defaults)) == 100.
Proof.
  apply (entry_points_differ (E := PlainText.env) "one two" EmptyString
           PlainText.defaults).
  - vm_compute. lia.
  - reflexivity.
Defined.

(** Which rules can fire together. *)

Lemma ssr_excludes_praise (m : Metrics) :
  JS.ltb (citationReadability m) 50 = true ->
  JS.geb (citationReadability m) 80 && JS.ltb (contentGain m) 1.5 = false.
Proof.
  intros H. apply JSFacts.ltb_lt in H.
  apply not_true_iff_false. rewrite IndexFacts.praise_condition. lra.
Qed.

Lemma javascript_excludes_praise (m : Metrics) :
  JS.gtb (contentGain m) 3 = true ->
  JS.geb (citationReadability m) 80 && JS.ltb (contentGain m) 1.5 = false.
Proof.
  intros H. apply JSFacts.gtb_lt in H.
  apply not_true_iff_false. rewrite IndexFacts.praise_condition. lra.
Qed.

(** X23.  At most three recommendations are ever given, and the acknowledgment
    never comes with the server-side rendering advice or the client-side
    loading flag. *)
Theorem recommendations_compatible (m : Metrics) :
  (List.length (generateRecommendations m) <= 3)%nat /\
  (In praise_recommendation (generateRecommendations m) ->
   ~ In ssr_recommendation (generateRecommendations m) /\
   ~ In javascript_recommendation (generateRecommendations m)).
Proof.
  pose proof (ssr_excludes_praise m) as Hs.
  pose proof (javascript_excludes_praise m) as Hj.
  unfold generateRecommendations, push_if.
  destruct (JS.ltb (citationReadability m) 50);
    destruct (JS.gtb (contentGain m) 3);
    try rewrite (Hs eq_refl); try rewrite (Hj eq_refl);
    destruct (JS.gtb (missingWords m) 1000);
    try destruct (JS.geb (citationReadability m) 80 && JS.ltb (contentGain m) 1.5);
    cbn [app List.length In]; (split; [lia|]); intros H;
    repeat (destruct H as [H | H]; [discriminate H|]); try contradiction;
    split; intros H';
    repeat (destruct H' as [H' | H']; [discriminate H'|]); contradiction.
Qed.

(** X24.  No recommendation is given exactly when readability is at least 50,
    gain at most 3, at most 1000 words are missing, and the page is not up
    for the acknowledgment either. *)
Theorem recommendations_empty (m : Metrics) :
  generateRecommendations m = []
  <-> 50 <= citationReadability m /\
      contentGain m <= 3 /\
      missingWords m <= 1000 /\
      (citationReadability m < 80 \/ 1.5 <= contentGain m).
Proof.
  rewrite IndexFacts.generateRecommendations_firedRules.
  unfold firedRules, ruleTable. cbn [filter map fst snd].
  destruct (JS.ltb (citationReadability m) 50) eqn:H1;
    [apply JSFacts.ltb_lt in H1
    | apply not_true_iff_false in H1; rewrite JSFacts.ltb_lt in H1];
    (destruct (JS.gtb (contentGain m) 3) eqn:H2;
      [apply JSFacts.gtb_lt in H2
      | apply not_true_iff_false in H2; rewrite JSFacts.gtb_lt in H2]);
    (destruct (JS.gtb (missingWords m) 1000) eqn:H3;
      [apply JSFacts.gtb_lt in H3
      | apply not_true_iff_false in H3; rewrite JSFacts.gtb_lt in H3]);
    (destruct (JS.geb (citationReadability m) 80 && JS.ltb (contentGain m) 1.5)
       eqn:H4;
      [apply IndexFacts.praise_condition in H4
      | apply not_true_iff_false in H4; rewrite IndexFacts.praise_condition in H4]);
    cbn [map snd];
    (split; [intros H; try discriminate H | intros (G1 & G2 & G3 & G4)]);
    first [reflexivity | lra].
Qed.

End EntryFacts.
